(** * AI-Planner2: the prompt-to-plan pipeline, embedded and verified

    The development follows the three backend modules of the repository:

    - [backend/utils.py]   : [clean_json_response], [validate_json_structure],
                              [format_error_message];
    - [backend/models.py]  : the [Risk], [Task], [Milestone] and [Plan] models
                              and [Plan.to_markdown];
    - [backend/planner.py] : [PlannerAgent.generate_plan] and [_create_prompt].

    Python values that come out of [json.loads] are modelled by the type
    [value]; a Python [dict] with string keys is a [gmap string value].
    A Python [str] is a Rocq [string] with one [ascii] per character, so the
    strings covered are those whose code points are below 256.  Exceptions
    are first-order data ([exn]) and fallible code returns a [result]. *)

From Stdlib Require Import ZArith String Ascii List Lia SpecFloat.
From Stdlib Require Import Decimal DecimalString.
From Stdlib Require Import Sorting.Sorted.
From stdpp Require Import gmap strings list fin_maps.

Set Warnings "-register-all".
Set Default Proof Using "Type".

(* ===================================================================== *)
(** * Python values, exceptions and the built-ins the code relies on      *)
(* ===================================================================== *)

Module Py.

(** What [json.loads] can produce: [None], [bool], [int], [float], [str],
    [list] and [dict].  No function of the pipeline looks inside a float,
    it is carried as an IEEE 754 datum. *)
Inductive value : Type :=
| VNone
| VBool (b : bool)
| VInt (z : Z)
| VFloat (f : spec_float)
| VStr (s : string)
| VList (l : list value)
| VDict (m : gmap string value).

(** An exception, as far as the pipeline observes it: [type(e).__name__],
    [isinstance(e, json.JSONDecodeError)] and [str(e)].  Only subclasses of
    [Exception] are represented. *)
Record exn : Type := MkExn {
  exn_name : string;
  exn_is_json_decode_error : bool;
  exn_str : string
}.

Definition TypeError (msg : string) : exn := MkExn "TypeError" false msg.
Definition AttributeError (msg : string) : exn := MkExn "AttributeError" false msg.
Definition KeyError (msg : string) : exn := MkExn "KeyError" false msg.
Definition IndexError (msg : string) : exn := MkExn "IndexError" false msg.

(** The outcome of a computation: a value, a raised exception, or a loop
    that used up the fuel it was given. *)
Inductive result (A : Type) : Type :=
| Ok (a : A)
| Err (e : exn)
| OutOfFuel.
Arguments Ok {A} a.
Arguments Err {A} e.
Arguments OutOfFuel {A}.

Definition rbind {A B : Type} (r : result A) (k : A -> result B) : result B :=
  match r with
  | Ok a => k a
  | Err e => Err e
  | OutOfFuel => OutOfFuel
  end.

(** [type(v).__name__] *)
Definition type_name (v : value) : string :=
  match v with
  | VNone => "NoneType"
  | VBool _ => "bool"
  | VInt _ => "int"
  | VFloat _ => "float"
  | VStr _ => "str"
  | VList _ => "list"
  | VDict _ => "dict"
  end.

Definition quoted (s : string) : string := "'" +:+ s +:+ "'".

(** The line feed, and a text between double quotes. *)
Definition newline : string := String "010" "".
Definition dq (s : string) : string := String "034" s +:+ String "034" "".

(** [s] without its prefix [l], when it has that prefix. *)
Fixpoint strip_prefix (l s : string) : option string :=
  match l with
  | EmptyString => Some s
  | String a l' =>
      match s with
      | String b s' => if Ascii.eqb a b then strip_prefix l' s' else None
      | EmptyString => None
      end
  end.

(** [s.startswith(l)] *)
Definition starts_with (l s : string) : bool :=
  match strip_prefix l s with
  | Some _ => true
  | None => false
  end.

(** [sub in s] on strings: [sub] occurs in [s]. *)
Fixpoint str_contains (sub s : string) : bool :=
  starts_with sub s ||
  match s with
  | EmptyString => false
  | String _ s' => str_contains sub s'
  end.

Definition is_VStr (k : string) (v : value) : bool :=
  match v with
  | VStr s => String.eqb s k
  | _ => false
  end.

(** [k in v] for a string [k]. *)
Definition py_contains (k : string) (v : value) : result bool :=
  match v with
  | VDict m => Ok (bool_decide (is_Some (m !! k)))
  | VList l => Ok (existsb (is_VStr k) l)
  | VStr s => Ok (str_contains k s)
  | _ => Err (TypeError ("argument of type " +:+ quoted (type_name v) +:+ " is not iterable"))
  end.

(** [v[k] = x] for a string [k]; the result is the new content of [v]. *)
Definition py_setitem (v : value) (k : string) (x : value) : result value :=
  match v with
  | VDict m => Ok (VDict (<[k := x]> m))
  | VList _ => Err (TypeError "list indices must be integers or slices, not str")
  | _ => Err (TypeError (quoted (type_name v) +:+ " object does not support item assignment"))
  end.

(** [v[k]] for a string [k]. *)
Definition py_getitem (v : value) (k : string) : result value :=
  match v with
  | VDict m =>
      match m !! k with
      | Some x => Ok x
      | None => Err (KeyError (quoted k))
      end
  | VList _ => Err (TypeError "list indices must be integers or slices, not str")
  | VStr _ => Err (TypeError "string indices must be integers, not 'str'")
  | _ => Err (TypeError (quoted (type_name v) +:+ " object is not subscriptable"))
  end.

(** [len(v)] *)
Definition py_len (v : value) : result nat :=
  match v with
  | VList l => Ok (length l)
  | VStr s => Ok (String.length s)
  | VDict m => Ok (size m)
  | _ => Err (TypeError ("object of type " +:+ quoted (type_name v) +:+ " has no len()"))
  end.

(** [v.append(x)]; the result is the new content of [v]. *)
Definition py_append (v x : value) : result value :=
  match v with
  | VList l => Ok (VList (l ++ [x]))
  | _ => Err (AttributeError (quoted (type_name v) +:+ " object has no attribute 'append'"))
  end.

(** [v[:n]].  Slicing a dict raises: the slice is looked up as a key.
    Up to CPython 3.11 a slice is unhashable and the exception is the
    [TypeError] written here; from 3.12 it is a [KeyError].  The properties
    below use only that the lookup raises, not the class. *)
Definition py_slice_to (n : nat) (v : value) : result value :=
  match v with
  | VList l => Ok (VList (take n l))
  | VStr s => Ok (VStr (String.substring 0 n s))
  | VDict _ => Err (TypeError "unhashable type: 'slice'")
  | _ => Err (TypeError (quoted (type_name v) +:+ " object is not subscriptable"))
  end.

End Py.
Export Py.

(* ===================================================================== *)
(** * The object bound to [data]: a state-and-exception monad             *)
(* ===================================================================== *)

(** [validate_json_structure] mutates its argument in place and returns it.
    A computation takes the current content of the object bound to [data]
    and yields its new content together with a [result]; the content is
    defined whether the computation returns or raises.  The argument is a
    tree, as [json.loads] builds it: no list or dict occurs in it twice, so
    that a mutation of [data['risks']] shows under that key only. *)
Module Mut.

Definition M (A : Type) : Type := value -> value * result A.

Definition ret {A : Type} (a : A) : M A := fun d => (d, Ok a).

Definition bind {A B : Type} (m : M A) (k : A -> M B) : M B :=
  fun d =>
    match m d with
    | (d', Ok a) => k a d'
    | (d', Err e) => (d', Err e)
    | (d', OutOfFuel) => (d', OutOfFuel)
    end.

Definition lift {A : Type} (r : result A) : M A := fun d => (d, r).
Definition out_of_fuel {A : Type} : M A := fun d => (d, OutOfFuel).
Definition get_data : M value := fun d => (d, Ok d).
Definition set_data (d' : value) : M unit := fun _ => (d', Ok tt).

End Mut.
Export Mut.

Notation "'let*' x ':=' m 'in' k" := (bind m (fun x => k))
  (at level 10, x name, m at level 100, k at level 200, only parsing).

(** [field in data] *)
Definition data_contains (field : string) : M bool :=
  let* d := get_data in lift (py_contains field d).

(** [data[field]] *)
Definition data_getitem (field : string) : M value :=
  let* d := get_data in lift (py_getitem d field).

(** [data[field] = x] *)
Definition data_setitem (field : string) (x : value) : M unit :=
  let* d := get_data in
  let* d' := lift (py_setitem d field x) in
  set_data d'.

(** [data[field].append(x)]: the list stored under [field] is extended in
    place, which shows in [data]. *)
Definition data_item_append (field : string) (x : value) : M unit :=
  let* r := data_getitem field in
  let* r' := lift (py_append r x) in
  data_setitem field r'.

(** [for x in xs: body x] *)
Fixpoint for_each {A : Type} (xs : list A) (body : A -> M unit) : M unit :=
  match xs with
  | [] => ret tt
  | x :: xs' => let* _ := body x in for_each xs' body
  end.

(** [while cond: body], with [fuel] bounding the number of iterations. *)
Fixpoint while_loop (fuel : nat) (cond : M bool) (body : M unit) : M unit :=
  let* b := cond in
  if b then
    match fuel with
    | O => out_of_fuel
    | S fuel' => let* _ := body in while_loop fuel' cond body
    end
  else ret tt.

(* ===================================================================== *)
(** * The regular expressions of [re] that the code uses                  *)
(* ===================================================================== *)

(** A backtracking matcher in the style of [re]: alternatives are tried in
    the order of the pattern, a star is greedy and gives characters back
    one at a time.  The three patterns of [clean_json_response] need
    literals, a starred character class, [$] and sequencing. *)
Module Re.

(** [\s] on [str] patterns, which is also what [str.strip] removes:
    the characters [c] with [c.isspace()]. *)
Definition is_space (c : ascii) : bool :=
  let n := nat_of_ascii c in
  ((9 <=? n) && (n <=? 13)) || ((28 <=? n) && (n <=? 32)) || (n =? 133) || (n =? 160).

(** [.] under [re.DOTALL] *)
Definition any_char (c : ascii) : bool := true.

Inductive regex : Type :=
| Lit (s : string)            (* the characters of [s], literally *)
| Star (p : ascii -> bool)    (* [c*] for the class [p], greedy *)
| Dollar                      (* [$] without [re.MULTILINE] *)
| Seq (r1 r2 : regex).

(** [$] holds at the end of the string and just before a newline that ends it. *)
Definition at_end (s : string) : bool :=
  match s with
  | EmptyString => true
  | String c EmptyString => Ascii.eqb c "010"
  | _ => false
  end.

(** A match consumes a prefix of [s] and hands what is left to the
    continuation [k], which says whether the rest of the pattern matches. *)
Fixpoint star_match (p : ascii -> bool) (k : string -> option string) (s : string)
  : option string :=
  match s with
  | String c s' =>
      if p c then
        match star_match p k s' with
        | Some rest => Some rest
        | None => k s
        end
      else k s
  | EmptyString => k s
  end.

Fixpoint match_re (r : regex) (k : string -> option string) (s : string)
  : option string :=
  match r with
  | Lit l => match strip_prefix l s with Some s' => k s' | None => None end
  | Star p => star_match p k s
  | Dollar => if at_end s then k s else None
  | Seq r1 r2 => match_re r1 (match_re r2 k) s
  end.

(** The pattern matched at the start of [s]: what follows the match. *)
Definition match_here (r : regex) (s : string) : option string :=
  match_re r Some s.

(** [re.search(r, s).group(0)]: the leftmost match. *)
Fixpoint re_search (r : regex) (s : string) : option string :=
  match match_here r s with
  | Some rest => Some (String.substring 0 (String.length s - String.length rest) s)
  | None =>
      match s with
      | String _ s' => re_search r s'
      | EmptyString => None
      end
  end.

(** [re.sub(r, repl, s)] for a literal [repl]; [skip] counts the characters
    of the current match that are still to be passed over.  An empty match
    leaves the character in place (the patterns used here start with a
    literal and have no empty match). *)
Fixpoint re_sub_from (skip : nat) (r : regex) (repl s : string) : string :=
  match skip with
  | S n =>
      match s with
      | String _ s' => re_sub_from n r repl s'
      | EmptyString => EmptyString
      end
  | O =>
      match match_here r s with
      | Some rest =>
          let n := String.length s - String.length rest in
          repl +:+
          match s with
          | String c s' =>
              if (n =? 0)%nat then String c (re_sub_from 0 r repl s')
              else re_sub_from (n - 1) r repl s'
          | EmptyString => EmptyString
          end
      | None =>
          match s with
          | String c s' => String c (re_sub_from 0 r repl s')
          | EmptyString => EmptyString
          end
      end
  end.

Definition re_sub (r : regex) (repl s : string) : string :=
  re_sub_from 0 r repl s.

(** [s.lstrip()], [s.rstrip()] and [s.strip()] *)
Fixpoint lstrip (s : string) : string :=
  match s with
  | String c s' => if is_space c then lstrip s' else s
  | EmptyString => EmptyString
  end.

Fixpoint rstrip (s : string) : string :=
  match s with
  | String c s' =>
      match rstrip s' with
      | EmptyString => if is_space c then EmptyString else String c EmptyString
      | t => String c t
      end
  | EmptyString => EmptyString
  end.

Definition strip (s : string) : string := rstrip (lstrip s).

End Re.
Export Re.

(* ===================================================================== *)
(** * backend/utils.py                                                    *)
(* ===================================================================== *)

Module Utils.

(** ** [clean_json_response] *)

(** [r'```json\s*'], [r'```\s*$'] and [r'\{.*\}'] with [re.DOTALL] *)
Definition re_json_fence : regex := Seq (Lit "```json") (Star is_space).
Definition re_closing_fence : regex := Seq (Lit "```") (Seq (Star is_space) Dollar).
Definition re_braces : regex := Seq (Lit "{") (Seq (Star any_char) (Lit "}")).

Definition clean_json_response (response : string) : string :=
  let response := re_sub re_json_fence "" response in
  let response := re_sub re_closing_fence "" response in
  match re_search re_braces response with
  | Some json_match => json_match
  | None => strip response
  end.

(** ** [format_error_message] *)

Definition format_error_message (error : exn) : string :=
  "Error (" +:+ exn_name error +:+ "): " +:+ exn_str error.

(** ** [validate_json_structure] *)

(** The dict literal [required_fields], in the order its items are visited. *)
Definition required_fields : list (string * value) :=
  [ ("project_name", VStr "Untitled Project");
    ("project_summary", VStr "No summary provided");
    ("total_weeks", VInt 4);
    ("milestones", VList []);
    ("risks", VList []);
    ("monitoring_checkpoints", VList []);
    ("parallel_opportunities", VList []) ].

(** The dict appended to a short risks list. *)
Definition generic_risk : value :=
  VDict (<["title" := VStr "Generic Risk"]>
        (<["description" := VStr "Standard project risk"]>
        (<["impact" := VStr "Medium"]>
        (<["probability" := VStr "Medium"]>
        (<["mitigation" := VStr "Monitor and adjust as needed"]> ∅))))).

(** [len(data['risks'])] *)
Definition len_risks : M nat :=
  let* r := data_getitem "risks" in lift (py_len r).

(** Lines 31-33: the loop that inserts the missing required fields, and
    its body. *)
Definition ensure_field (item : string * value) : M unit :=
  let '(field, default_value) := item in
  let* present := data_contains field in
  if negb present then data_setitem field default_value else ret tt.

Definition ensure_required_fields : M unit :=
  for_each required_fields ensure_field.

(** Lines 36-46: the risks list is brought to three items. *)
Definition normalize_risks (fuel : nat) : M unit :=
  let* n := len_risks in
  if (n <? 3)%nat then
    while_loop fuel
      (let* n' := len_risks in ret (n' <? 3)%nat)
      (data_item_append "risks" generic_risk)
  else
    let* n2 := len_risks in
    if (3 <? n2)%nat then
      let* r := data_getitem "risks" in
      let* r' := lift (py_slice_to 3 r) in
      data_setitem "risks" r'
    else ret tt.

Definition validate_json_structure_fuel (fuel : nat) : M value :=
  let* _ := ensure_required_fields in
  let* _ := normalize_risks fuel in
  get_data.

(** Three iterations of the padding loop always suffice (see
    [validate_json_structure_enough_fuel]). *)
Definition validate_json_structure : M value :=
  validate_json_structure_fuel 3.

(** The return value of a call on [d], or what it raised. *)
Definition validate_json_structure_result (d : value) : result value :=
  (validate_json_structure d).2.

End Utils.
Export Utils.

(* ===================================================================== *)
(** * Model construction as pydantic performs it                          *)
(* ===================================================================== *)

(** Calling [Plan] on the keyword arguments [plan_data] validates them against the field
    declarations of [backend/models.py] and collects every error before it
    raises.  The rules are those of pydantic 2, which [app.py] relies on
    ([model_dump_json]): a [str] field takes a string only, a list field a
    list only, a model field a dict, and unknown keys are ignored.  What the
    library does with a value that is not of the declared scalar type (the
    coercions of its lax mode for [int] and [bool]) and how it words its
    error message are parameters of the embedding, gathered in [library]. *)
Module Pydantic.

Inductive loc_item : Type :=
| LField (name : string)
| LIndex (i : nat).

(** One entry of [ValidationError.errors()]. *)
Record error_detail : Type := MkError {
  err_loc : list loc_item;
  err_type : string;
  err_input : value
}.

Inductive validated (A : Type) : Type :=
| Valid (a : A)
| Invalid (errors : list error_detail).
Arguments Valid {A} a.
Arguments Invalid {A} errors.

Record library : Type := MkLibrary {
  lax_int : value -> validated Z;
  lax_bool : value -> validated bool;
  error_message : string -> list error_detail -> string
}.

Definition at_loc {A : Type} (i : loc_item) (v : validated A) : validated A :=
  match v with
  | Valid a => Valid a
  | Invalid errors =>
      Invalid (map (fun e => MkError (i :: err_loc e) (err_type e) (err_input e)) errors)
  end.

(** Fields are validated one after the other and their errors add up. *)
Definition ap {A B : Type} (f : validated (A -> B)) (x : validated A) : validated B :=
  match f, x with
  | Valid g, Valid a => Valid (g a)
  | Valid _, Invalid e => Invalid e
  | Invalid e, Valid _ => Invalid e
  | Invalid e1, Invalid e2 => Invalid (e1 ++ e2)
  end.

(** [str] *)
Definition str_type (v : value) : validated string :=
  match v with
  | VStr s => Valid s
  | _ => Invalid [MkError [] "string_type" v]
  end.

(** [int] *)
Definition int_type (lib : library) (v : value) : validated Z :=
  match v with
  | VInt z => Valid z
  | _ => lax_int lib v
  end.

(** [bool] *)
Definition bool_type (lib : library) (v : value) : validated bool :=
  match v with
  | VBool b => Valid b
  | _ => lax_bool lib v
  end.

Fixpoint list_items {A : Type} (item : value -> validated A) (i : nat)
    (l : list value) : validated (list A) :=
  match l with
  | [] => Valid []
  | x :: l' =>
      ap (ap (Valid cons) (at_loc (LIndex i) (item x))) (list_items item (S i) l')
  end.

(** [List[A]] *)
Definition list_type {A : Type} (item : value -> validated A) (v : value)
  : validated (list A) :=
  match v with
  | VList l => list_items item 0 l
  | _ => Invalid [MkError [] "list_type" v]
  end.

(** A field declared with [Field(...)]: it is required. *)
Definition required {A : Type} (m : gmap string value) (field : string)
    (type : value -> validated A) : validated A :=
  match m !! field with
  | Some v => at_loc (LField field) (type v)
  | None => Invalid [MkError [LField field] "missing" (VDict m)]
  end.

(** A field declared with [Field(default=...)]. *)
Definition with_default {A : Type} (m : gmap string value) (field : string)
    (type : value -> validated A) (default : A) : validated A :=
  match m !! field with
  | Some v => at_loc (LField field) (type v)
  | None => Valid default
  end.

(** A field whose type is a model, given as a dict. *)
Definition model_type {A : Type} (fields : gmap string value -> validated A)
    (v : value) : validated A :=
  match v with
  | VDict m => fields m
  | _ => Invalid [MkError [] "model_type" v]
  end.

Definition ValidationError (msg : string) : exn := MkExn "ValidationError" false msg.

End Pydantic.
Export Pydantic.

Notation "f <*> x" := (ap f x) (at level 50, left associativity).

(* ===================================================================== *)
(** * backend/models.py                                                   *)
(* ===================================================================== *)

Module Risk.
Record t : Type := mk {
  title : string;
  description : string;
  impact : string;
  probability : string;
  mitigation : string
}.

Definition validate (m : gmap string value) : validated t :=
  Valid mk
    <*> required m "title" str_type
    <*> required m "description" str_type
    <*> required m "impact" str_type
    <*> required m "probability" str_type
    <*> required m "mitigation" str_type.
End Risk.

Module Task.
Record t : Type := mk {
  name : string;
  description : string;
  estimated_hours : Z;
  dependencies : list string;
  can_parallel : bool
}.

Definition validate (lib : library) (m : gmap string value) : validated t :=
  Valid mk
    <*> required m "name" str_type
    <*> required m "description" str_type
    <*> required m "estimated_hours" (int_type lib)
    <*> with_default m "dependencies" (list_type str_type) []
    <*> with_default m "can_parallel" (bool_type lib) false.
End Task.

Module Milestone.
Record t : Type := mk {
  name : string;
  description : string;
  week_number : Z;
  deliverables : list string;
  tasks : list Task.t;
  success_criteria : list string
}.

Definition validate (lib : library) (m : gmap string value) : validated t :=
  Valid mk
    <*> required m "name" str_type
    <*> required m "description" str_type
    <*> required m "week_number" (int_type lib)
    <*> required m "deliverables" (list_type str_type)
    <*> required m "tasks" (list_type (model_type (Task.validate lib)))
    <*> required m "success_criteria" (list_type str_type).
End Milestone.

Module Plan.
Record t : Type := mk {
  project_name : string;
  project_summary : string;
  total_weeks : Z;
  milestones : list Milestone.t;
  risks : list Risk.t;
  monitoring_checkpoints : list string;
  parallel_opportunities : list string
}.

Definition validate (lib : library) (m : gmap string value) : validated t :=
  Valid mk
    <*> required m "project_name" str_type
    <*> required m "project_summary" str_type
    <*> required m "total_weeks" (int_type lib)
    <*> required m "milestones" (list_type (model_type (Milestone.validate lib)))
    <*> required m "risks" (list_type (model_type Risk.validate))
    <*> required m "monitoring_checkpoints" (list_type str_type)
    <*> required m "parallel_opportunities" (list_type str_type).

(** [Plan] called on the items of [m] as keyword arguments: the instance,
    or the [ValidationError] that is raised. *)
Definition new (lib : library) (m : gmap string value) : exn + t :=
  match validate lib m with
  | Valid plan => inr plan
  | Invalid errors => inl (ValidationError (error_message lib "Plan" errors))
  end.

(** ** [Plan.to_markdown] *)

(** [f"{n}"] for an [int] *)
Definition str_of_int (n : Z) : string := NilZero.string_of_int (Z.to_int n).

(** [for x in xs: md += f"- {x}\n"] *)
Definition add_bullets (xs : list string) (md : string) : string :=
  fold_left (fun md x => md +:+ "- " +:+ x +:+ newline) xs md.

Definition parallel_note (task : Task.t) : string :=
  if Task.can_parallel task then " (Can be done in parallel)" else "".

(** The first line written for a task. *)
Definition task_line (task : Task.t) : string :=
  "- **" +:+ Task.name task +:+ "** (" +:+ str_of_int (Task.estimated_hours task)
    +:+ "h)" +:+ parallel_note task +:+ newline.

(** The body of [for task in milestone.tasks]. *)
Definition add_task (md : string) (task : Task.t) : string :=
  let md := md +:+ task_line task in
  let md := md +:+ "  " +:+ Task.description task +:+ newline in
  match Task.dependencies task with
  | [] => md
  | _ :: _ =>
      md +:+ "  Dependencies: " +:+ String.concat ", " (Task.dependencies task)
         +:+ newline
  end.

(** The H3 line written for a milestone. *)
Definition milestone_heading (milestone : Milestone.t) : string :=
  "### " +:+ Milestone.name milestone +:+ " (Week "
    +:+ str_of_int (Milestone.week_number milestone) +:+ ")" +:+ newline.

(** The body of [for milestone in self.milestones]. *)
Definition add_milestone (md : string) (milestone : Milestone.t) : string :=
  let md := md +:+ milestone_heading milestone in
  let md := md +:+ Milestone.description milestone +:+ newline +:+ newline in
  let md := md +:+ "**Deliverables:**" +:+ newline in
  let md := add_bullets (Milestone.deliverables milestone) md in
  let md := md +:+ newline +:+ "**Tasks:**" +:+ newline in
  let md := fold_left add_task (Milestone.tasks milestone) md in
  let md := md +:+ newline +:+ "**Success Criteria:**" +:+ newline in
  let md := add_bullets (Milestone.success_criteria milestone) md in
  md +:+ newline.

(** [enumerate(xs, start)] *)
Fixpoint enumerate {A : Type} (xs : list A) (start : Z) : list (Z * A) :=
  match xs with
  | [] => []
  | x :: xs' => (start, x) :: enumerate xs' (start + 1)
  end.

(** The body of [for i, risk in enumerate(self.risks, 1)]. *)
Definition add_risk (md : string) (entry : Z * Risk.t) : string :=
  let '(i, risk) := entry in
  let md := md +:+ "### " +:+ str_of_int i +:+ ". " +:+ Risk.title risk +:+ newline in
  let md := md +:+ "**Description:** " +:+ Risk.description risk +:+ newline in
  let md := md +:+ "**Impact:** " +:+ Risk.impact risk +:+ " | **Probability:** "
               +:+ Risk.probability risk +:+ newline in
  md +:+ "**Mitigation:** " +:+ Risk.mitigation risk +:+ newline +:+ newline.

Definition to_markdown (self : t) : string :=
  let md := "# " +:+ project_name self +:+ newline +:+ newline in
  let md := md +:+ "**Project Summary:** " +:+ project_summary self
               +:+ newline +:+ newline in
  let md := md +:+ "**Total Duration:** " +:+ str_of_int (total_weeks self)
               +:+ " weeks" +:+ newline +:+ newline in
  let md := md +:+ "## Milestones" +:+ newline +:+ newline in
  let md := fold_left add_milestone (milestones self) md in
  let md := md +:+ "## Top 3 Risks" +:+ newline +:+ newline in
  let md := fold_left add_risk (enumerate (risks self) 1) md in
  let md := md +:+ "## Monitoring Checkpoints" +:+ newline +:+ newline in
  let md := add_bullets (monitoring_checkpoints self) md in
  let md := md +:+ newline +:+ "## Parallel Work Opportunities" +:+ newline
               +:+ newline in
  let md := add_bullets (parallel_opportunities self) md in
  md.
End Plan.

(* ===================================================================== *)
(** * backend/planner.py                                                  *)
(* ===================================================================== *)

Module Planner.

(** The en dash of the prompt (U+2013) is outside the characters of the
    embedding; it is written as its three UTF-8 bytes.  Nothing downstream
    looks into the prompt. *)
Definition en_dash : string := String "226" (String "128" (String "147" "")).

(** The text of the f-string before and after [{project_brief}], line by line. *)
Definition prompt_head : list string :=
  [ "";
    "Create a detailed project plan for the following project brief. Respond with ONLY valid JSON matching this exact structure:";
    "";
    "{";
    "  " +:+ dq "project_name" +:+ ": " +:+ dq "string" +:+ ",";
    "  " +:+ dq "project_summary" +:+ ": " +:+ dq "string" +:+ ",";
    "  " +:+ dq "total_weeks" +:+ ": number,";
    "  " +:+ dq "milestones" +:+ ": [";
    "    {";
    "      " +:+ dq "name" +:+ ": " +:+ dq "string" +:+ ",";
    "      " +:+ dq "description" +:+ ": " +:+ dq "string" +:+ ", ";
    "      " +:+ dq "week_number" +:+ ": number,";
    "      " +:+ dq "deliverables" +:+ ": [" +:+ dq "string" +:+ "],";
    "      " +:+ dq "tasks" +:+ ": [";
    "        {";
    "          " +:+ dq "name" +:+ ": " +:+ dq "string" +:+ ",";
    "          " +:+ dq "description" +:+ ": " +:+ dq "string" +:+ ",";
    "          " +:+ dq "estimated_hours" +:+ ": number,";
    "          " +:+ dq "dependencies" +:+ ": [" +:+ dq "string" +:+ "],";
    "          " +:+ dq "can_parallel" +:+ ": boolean";
    "        }";
    "      ],";
    "      " +:+ dq "success_criteria" +:+ ": [" +:+ dq "string" +:+ "]";
    "    }";
    "  ],";
    "  " +:+ dq "risks" +:+ ": [";
    "    {";
    "      " +:+ dq "title" +:+ ": " +:+ dq "string" +:+ ",";
    "      " +:+ dq "description" +:+ ": " +:+ dq "string" +:+ ",";
    "      " +:+ dq "impact" +:+ ": " +:+ dq "Low|Medium|High" +:+ ",";
    "      " +:+ dq "probability" +:+ ": " +:+ dq "Low|Medium|High" +:+ ",";
    "      " +:+ dq "mitigation" +:+ ": " +:+ dq "string";
    "    }";
    "  ],";
    "  " +:+ dq "monitoring_checkpoints" +:+ ": [" +:+ dq "string" +:+ "],";
    "  " +:+ dq "parallel_opportunities" +:+ ": [" +:+ dq "string" +:+ "]";
    "}";
    "";
    "Requirements:";
    "- Realistic 4" +:+ en_dash +:+ "12 week timeline";
    "- Detailed tasks & hour estimates";
    "- Exactly 3 risks with mitigations";
    "- Mark parallel-capable tasks";
    "- Include monitoring checkpoints";
    "";
    "Project Brief:";
    "" ].

Definition prompt_tail : list string :=
  [ "";
    "";
    "Respond with valid JSON only:";
    "" ].

(** [_create_prompt] *)
Definition _create_prompt (project_brief : string) : string :=
  String.concat newline prompt_head +:+ project_brief
    +:+ String.concat newline prompt_tail.

(** The keyword arguments of [client.chat.completions.create]. *)
Record chat_request : Type := MkRequest {
  req_model : string;
  req_messages : list (string * string);   (* role, content *)
  req_temperature : spec_float;
  req_max_tokens : Z
}.

(** The float [0.1]. *)
Definition temperature_0_1 : spec_float :=
  S754_finite false 7205759403792794 (-56).

Definition system_content : string :=
  "You are an expert project manager who creates detailed, realistic "
  +:+ "project plans. Always respond with valid JSON only.".

(** The two calls into other libraries, which return or raise: the chat
    completion, of whose response only the [message.content] of each choice
    is kept ([None] when the message has no text), and [json.loads]. *)
Record environment : Type := MkEnvironment {
  chat_completions_create : chat_request -> exn + list (option string);
  json_loads : string -> exn + value
}.

Definition call {A : Type} (r : exn + A) : result A :=
  match r with
  | inl e => Err e
  | inr a => Ok a
  end.

Notation "'try*' x ':=' r 'in' k" := (rbind r (fun x => k))
  (at level 10, x name, r at level 100, k at level 200, only parsing).

(** [response.choices[0].message.content] *)
Definition first_content (choices : list (option string)) : result (option string) :=
  match choices with
  | c :: _ => Ok c
  | [] => Err (IndexError "list index out of range")
  end.

(** [clean_json_response(content)]: [re.sub] raises on [None]. *)
Definition clean_content (content : option string) : result string :=
  match content with
  | Some text => Ok (clean_json_response text)
  | None => Err (TypeError "expected string or bytes-like object, got 'NoneType'")
  end.

(** [Plan] called on the items of [plan_data] as keyword arguments. *)
Definition construct_plan (lib : library) (plan_data : value) : result Plan.t :=
  match plan_data with
  | VDict m => call (Plan.new lib m)
  | _ =>
      Err (TypeError ("backend.models.Plan() argument after ** must be a mapping, not "
                      +:+ type_name plan_data))
  end.

(** The request that [generate_plan] sends for a prompt. *)
Definition chat_request_for (model prompt : string) : chat_request :=
  MkRequest model [("system", system_content); ("user", prompt)]
    temperature_0_1 4000.

(** The body of the [try] block of [generate_plan]. *)
Definition generate_plan_body (lib : library) (env : environment)
    (model : string) (project_brief : string) : result Plan.t :=
  let prompt := _create_prompt project_brief in
  try* response :=
    call (chat_completions_create env (chat_request_for model prompt)) in
  try* content := first_content response in
  try* json_text := clean_content content in
  try* plan_data := call (json_loads env json_text) in
  try* plan_data := validate_json_structure_result plan_data in
  try* plan := construct_plan lib plan_data in
  Ok plan.

(** [generate_plan]: the two [except] clauses, in their order.  A body that
    did not come to an end gives no pair. *)
Definition generate_plan (lib : library) (env : environment)
    (model : string) (project_brief : string)
  : option (option Plan.t * option string) :=
  match generate_plan_body lib env model project_brief with
  | Ok plan => Some (Some plan, None)
  | Err e =>
      if exn_is_json_decode_error e
      then Some (None, Some ("Invalid JSON response from AI: " +:+ exn_str e))
      else Some (None, Some (format_error_message e))
  | OutOfFuel => None
  end.

(** [self.model] as set by [__init__]. *)
Definition default_model : string := "llama-3.3-70b-versatile".

End Planner.
Export Planner.

(** ** [PlannerAgent.__init__] and [create_planner] *)

(** The Groq library as the agent uses it: the constructor
    [Groq(api_key=...)] and the method [chat.completions.create] of the
    client it makes.  Both return or raise. *)
Module Factory.

Record groq_library (client : Type) : Type := MkGroq {
  Groq : string -> exn + client;
  completions_create : client -> chat_request -> exn + list (option string)
}.
Arguments MkGroq {client} _ _.
Arguments Groq {client} _ _.
Arguments completions_create {client} _ _ _.

Record PlannerAgent (client : Type) : Type := MkAgent {
  agent_client : client;     (* [self.client] *)
  agent_model : string       (* [self.model] *)
}.
Arguments MkAgent {client} _ _.
Arguments agent_client {client} _.
Arguments agent_model {client} _.

(** [PlannerAgent(api_key)] *)
Definition PlannerAgent_init {client : Type} (groq : groq_library client)
    (api_key : string) : exn + PlannerAgent client :=
  match Groq groq api_key with
  | inl e => inl e
  | inr c => inr (MkAgent c default_model)
  end.

(** [create_planner()]; [getenv] is [os.getenv].  [not api_key] holds for
    [None] and for the empty string. *)
Definition create_planner {client : Type} (groq : groq_library client)
    (getenv : string -> option string)
  : option (PlannerAgent client) * option string :=
  match getenv "GROQ_API_KEY" with
  | None | Some EmptyString =>
      (None, Some "GROQ_API_KEY not found in environment variables")
  | Some api_key =>
      match PlannerAgent_init groq api_key with
      | inr agent => (Some agent, None)
      | inl e => (None, Some (format_error_message e))
      end
  end.

(** [planner.generate_plan(project_brief)]: the method, with [self.client]
    and [self.model] of the agent. *)
Definition agent_generate_plan {client : Type} (lib : library)
    (groq : groq_library client) (loads : string -> exn + value)
    (agent : PlannerAgent client) (project_brief : string)
  : option (option Plan.t * option string) :=
  generate_plan lib
    (MkEnvironment (completions_create groq (agent_client agent)) loads)
    (agent_model agent) project_brief.

End Factory.
Export Factory.

(* ===================================================================== *)
(** * app.py: the figures computed from a plan                            *)
(* ===================================================================== *)

(** The computations that [main] makes on the plan it shows; the widgets
    that display them are left out. *)
Module App.

(** [sum(xs)] on integers *)
Definition py_sum (xs : list Z) : Z := fold_left Z.add xs 0%Z.

(** [len(xs)] as an integer *)
Definition len {A : Type} (xs : list A) : Z := Z.of_nat (length xs).

(** [s.replace(old, new)] for single characters [old] and [new] *)
Fixpoint replace_char (old new : ascii) (s : string) : string :=
  match s with
  | EmptyString => EmptyString
  | String c s' =>
      String (if Ascii.eqb c old then new else c) (replace_char old new s')
  end.

(** [bool(s)] for an optional string: [None] and the empty string are false. *)
Definition truthy (s : option string) : bool :=
  match s with
  | None | Some EmptyString => false
  | Some _ => true
  end.

(** [file_name] of the two download buttons *)
Definition markdown_file_name (plan : Plan.t) : string :=
  replace_char " " "_" (Plan.project_name plan) +:+ "_plan.md".

Definition json_file_name (plan : Plan.t) : string :=
  replace_char " " "_" (Plan.project_name plan) +:+ "_plan.json".

(** The summary metrics. *)
Definition total_tasks (plan : Plan.t) : Z :=
  py_sum (map (fun m => len (Milestone.tasks m)) (Plan.milestones plan)).

Definition total_hours (plan : Plan.t) : Z :=
  py_sum (map (fun m => py_sum (map Task.estimated_hours (Milestone.tasks m)))
              (Plan.milestones plan)).

(** One dict of [timeline_data]. *)
Record timeline_entry : Type := MkEntry {
  Week : Z;
  Milestone_name : string;   (* key ['Milestone'] *)
  Tasks : Z;
  Hours : Z;
  Description : string
}.

(** [d[:100] + "..." if len(d) > 100 else d] *)
Definition short_description (d : string) : string :=
  if (100 <? String.length d)%nat then String.substring 0 100 d +:+ "..." else d.

(** The body of [for milestone in plan.milestones]. *)
Definition timeline_entry_of (milestone : Milestone.t) : timeline_entry :=
  let total_hours := py_sum (map Task.estimated_hours (Milestone.tasks milestone)) in
  MkEntry (Milestone.week_number milestone)
          (Milestone.name milestone)
          (len (Milestone.tasks milestone))
          total_hours
          (short_description (Milestone.description milestone)).

(** [timeline_data.sort(key=lambda x: x['Week'])].  [list.sort] is stable,
    and a stable sort by a key has one possible result (see
    [stable_sort_unique]); it is computed here by insertion. *)
Fixpoint insert_by_week (e : timeline_entry) (l : list timeline_entry)
  : list timeline_entry :=
  match l with
  | [] => [e]
  | y :: l' => if (Week e <=? Week y)%Z then e :: l else y :: insert_by_week e l'
  end.

Definition sort_by_week (l : list timeline_entry) : list timeline_entry :=
  foldr insert_by_week [] l.

Definition timeline_data (plan : Plan.t) : list timeline_entry :=
  sort_by_week (map timeline_entry_of (Plan.milestones plan)).

(** [next(m for m in plan.milestones if m.name == milestone['Milestone'])];
    [None] stands for the [StopIteration] of an exhausted generator. *)
Definition actual_milestone (plan : Plan.t) (milestone : timeline_entry)
  : option Milestone.t :=
  List.find (fun m => String.eqb (Milestone.name m) (Milestone_name milestone))
            (Plan.milestones plan).

(** What the click on "Generate Plan" leads to: an error box, or the value
    stored as [st.session_state.plan]; [Raised] is an exception that leaves
    [main]. *)
Inductive outcome : Type :=
| ShowError (message : string)
| StorePlan (plan : option Plan.t)
| Raised (e : exn).

(** The branch [if generate_button:] of [main].  [getenv] is [os.getenv],
    read once for [api_key] and once more inside [create_planner]; an
    attribute looked up on [None] raises [AttributeError]. *)
Definition on_generate {client : Type} (lib : library)
    (groq : groq_library client) (loads : string -> exn + value)
    (getenv : string -> option string) (project_brief : string)
  : option outcome :=
  let api_key := getenv "GROQ_API_KEY" in
  if negb (truthy (Some (strip project_brief))) then
    Some (ShowError "Please enter a project brief or upload a file.")
  else if negb (truthy api_key) then
    Some (ShowError "Please configure your Groq API key in the .env file.")
  else
    let '(planner, error) := create_planner groq getenv in
    if truthy error then
      Some (ShowError ("Failed to initialize planner: " +:+ default "" error))
    else
      match planner with
      | None =>
          Some (Raised (AttributeError
                  "'NoneType' object has no attribute 'generate_plan'"))
      | Some planner =>
          match agent_generate_plan lib groq loads planner project_brief with
          | None => None
          | Some (plan, error) =>
              if truthy error then
                Some (ShowError ("Failed to generate plan: " +:+ default "" error))
              else Some (StorePlan plan)
          end
      end.

End App.

(* ===================================================================== *)
(** * Notions used to state the properties                                *)
(* ===================================================================== *)

(** The defaults as a map: the loop of lines 31-33 computes a union. *)
Definition defaults : gmap string value := list_to_map required_fields.

Definition fill_field (m : gmap string value) (kv : string * value) : gmap string value :=
  if bool_decide (is_Some (m !! kv.1)) then m else <[kv.1 := kv.2]> m.

(** What lines 36-46 do to the value stored under [risks]. *)
Definition risks_rule (r : value) : result value :=
  match r with
  | VList l => Ok (VList (take 3 (l ++ replicate (3 - length l) generic_risk)))
  | VStr s =>
      if (String.length s <? 3)%nat
      then Err (AttributeError "'str' object has no attribute 'append'")
      else Ok (VStr (String.substring 0 3 s))
  | VDict d =>
      if (size d <? 3)%nat
      then Err (AttributeError "'dict' object has no attribute 'append'")
      else if (3 <? size d)%nat then Err (TypeError "unhashable type: 'slice'")
      else Ok (VDict d)
  | _ => Err (TypeError ("object of type " +:+ quoted (type_name r) +:+ " has no len()"))
  end.

(** The names of the seven top-level fields. *)
Definition required_names : list string := required_fields.*1.

(** The risks values on which lines 36-46 go through. *)
Definition risks_accepted (o : option value) : Prop :=
  match o with
  | None => True
  | Some (VList _) => True
  | Some (VStr s) => 3 <= String.length s
  | Some (VDict d) => size d = 3
  | Some _ => False
  end.

(** All seven fields are there and [len(data['risks'])] is 3. *)
Definition minimum_shape (m : gmap string value) : Prop :=
  (forall k, k ∈ required_names -> is_Some (m !! k)) /\
  exists r, m !! "risks" = Some r /\ py_len r = Ok 3.

(** Every character of [s] satisfies [p]. *)
Fixpoint all_chars (p : ascii -> bool) (s : string) : bool :=
  match s with
  | EmptyString => true
  | String c s' => p c && all_chars p s'
  end.

Definition all_space (s : string) : bool := all_chars is_space s.

(** The character [c] does not occur in [s]. *)
Definition no_char (c : ascii) (s : string) : bool :=
  all_chars (fun x => negb (Ascii.eqb x c)) s.

(** The specification of [clean_json_response], step by step, as relations
    between the text before and after each step. *)

(** Every occurrence of the opener, with the white space after it, is removed. *)
Inductive openers_removed : string -> string -> Prop :=
| openers_nil : openers_removed "" ""
| openers_fence (ws s r : string) :
    all_space ws = true -> lstrip s = s ->
    openers_removed s r ->
    openers_removed ("```json" +:+ ws +:+ s) r
| openers_char (c : ascii) (s r : string) :
    starts_with "```json" (String c s) = false ->
    openers_removed s r ->
    openers_removed (String c s) (String c r).

(** A closer that ends the text, up to white space, is removed with it. *)
Definition closer_removed (s r : string) : Prop :=
  (exists ws, s = r +:+ "```" +:+ ws /\ all_space ws = true) \/
  (r = s /\ forall p ws, s = p +:+ "```" +:+ ws -> all_space ws = false).

(** The span from the first opening brace to the last closing brace, or
    else the text without the white space around it. *)
Definition brace_span_or_trimmed (s out : string) : Prop :=
  (exists p m q, s = p +:+ "{" +:+ m +:+ "}" +:+ q /\
     no_char "{" p = true /\ no_char "}" q = true /\
     out = "{" +:+ m +:+ "}") \/
  ((forall p m q, s <> p +:+ "{" +:+ m +:+ "}" +:+ q) /\ out = strip s).

(** The algorithm of section 4.3 of the specification, in its own words:
    a leading opener is stripped, then a closing fence that ends the text;
    the brace span of what remains is returned, or else the original text,
    trimmed.  Steps 2 and 3 are the ones of the code. *)
Definition clean_json_response_as_specified (raw : string) : string :=
  let opened :=
    match strip_prefix "```json" raw with
    | Some rest => lstrip rest
    | None => raw
    end in
  let remaining := re_sub re_closing_fence "" opened in
  match re_search re_braces remaining with
  | Some span => span
  | None => strip raw
  end.

(** Exactly one component of the pair is not [None]. *)
Definition exactly_one_non_null {A B : Type} (r : option A * option B) : Prop :=
  (exists a, r = (Some a, None)) \/ (exists b, r = (None, Some b)).

(** A library on which the properties are exercised: it accepts the
    declared scalar types only and words every error the same way.  It
    stands for no version of pydantic; the properties are stated for every
    library.  Then three environments: one whose chat completion
    raises an exception of a class named [ValidationError], one whose chat
    completion raises a [JSONDecodeError], and one whose completion is a
    JSON object that is no plan. *)
Definition strict_library : library :=
  MkLibrary (fun v => Invalid [MkError [] "int_type" v])
            (fun v => Invalid [MkError [] "bool_type" v])
            (fun _ _ => "boom").

Definition no_plan_text : string := "{" +:+ dq "project_name" +:+ ": 5}".

Definition failing_provider (e : exn) : environment :=
  MkEnvironment (fun _ => inl e) (fun _ => inr VNone).

Definition no_plan_provider : environment :=
  MkEnvironment (fun _ => inr [Some no_plan_text])
                (fun _ => inr (VDict {[ "project_name" := VInt 5 ]})).

(** The errors that the validation of [no_plan_text] ends with, whatever
    the library: an integer is no string. *)
Definition no_plan_errors : list error_detail :=
  [MkError [LField "project_name"] "string_type" (VInt 5)].

(** An environment whose completion is no JSON, with the exception that
    [json.loads] raises on it, and a provider exception of another class. *)
Definition expecting_value : exn :=
  MkExn "JSONDecodeError" true "Expecting value: line 1 column 1 (char 0)".

Definition invalid_json_provider : environment :=
  MkEnvironment (fun _ => inr [Some "Sorry, I cannot help."])
                (fun _ => inl expecting_value).

Definition rate_limit_error : exn := MkExn "RateLimitError" false "Too many requests".

(** [model_dump()]: the field-for-field dict of an instance. *)
Definition risk_dump (r : Risk.t) : value :=
  VDict (<["title" := VStr (Risk.title r)]>
        (<["description" := VStr (Risk.description r)]>
        (<["impact" := VStr (Risk.impact r)]>
        (<["probability" := VStr (Risk.probability r)]>
        (<["mitigation" := VStr (Risk.mitigation r)]> ∅))))).

Definition task_dump (t : Task.t) : value :=
  VDict (<["name" := VStr (Task.name t)]>
        (<["description" := VStr (Task.description t)]>
        (<["estimated_hours" := VInt (Task.estimated_hours t)]>
        (<["dependencies" := VList (VStr <$> Task.dependencies t)]>
        (<["can_parallel" := VBool (Task.can_parallel t)]> ∅))))).

Definition milestone_dump (m : Milestone.t) : value :=
  VDict (<["name" := VStr (Milestone.name m)]>
        (<["description" := VStr (Milestone.description m)]>
        (<["week_number" := VInt (Milestone.week_number m)]>
        (<["deliverables" := VList (VStr <$> Milestone.deliverables m)]>
        (<["tasks" := VList (task_dump <$> Milestone.tasks m)]>
        (<["success_criteria" := VList (VStr <$> Milestone.success_criteria m)]> ∅)))))).

Definition plan_dump (p : Plan.t) : gmap string value :=
  <["project_name" := VStr (Plan.project_name p)]>
  (<["project_summary" := VStr (Plan.project_summary p)]>
  (<["total_weeks" := VInt (Plan.total_weeks p)]>
  (<["milestones" := VList (milestone_dump <$> Plan.milestones p)]>
  (<["risks" := VList (risk_dump <$> Plan.risks p)]>
  (<["monitoring_checkpoints" := VList (VStr <$> Plan.monitoring_checkpoints p)]>
  (<["parallel_opportunities" := VList (VStr <$> Plan.parallel_opportunities p)]> ∅)))))).

(** The value invariants that section 3 of the specification gives for the
    data model. *)
Definition is_level (s : string) : Prop := s = "Low" \/ s = "Medium" \/ s = "High".

Definition risk_invariant (r : Risk.t) : Prop :=
  is_level (Risk.impact r) /\ is_level (Risk.probability r).

Definition task_invariant (t : Task.t) : Prop := (0 <= Task.estimated_hours t)%Z.

Definition milestone_invariant (m : Milestone.t) : Prop :=
  (0 < Milestone.week_number m)%Z /\
  Milestone.deliverables m <> [] /\
  Forall task_invariant (Milestone.tasks m).

Definition plan_invariant (p : Plan.t) : Prop :=
  (0 < Plan.total_weeks p)%Z /\
  Forall milestone_invariant (Plan.milestones p) /\
  Forall risk_invariant (Plan.risks p).

(** A plan that breaks each of them, and the data it is constructed from. *)
Definition odd_task : Task.t := Task.mk "t" "d" (-5) [] false.
Definition odd_milestone : Milestone.t := Milestone.mk "m" "d" 0 [] [odd_task] [].
Definition odd_risk : Risk.t := Risk.mk "r" "d" "Catastrophic" "Certain" "none".
Definition odd_plan : Plan.t := Plan.mk "p" "s" (-1) [odd_milestone] [odd_risk] [] [].

(** The texts that [to_markdown] writes for one milestone and for one task. *)
Definition milestone_block (m : Milestone.t) : string := Plan.add_milestone "" m.
Definition task_block (t : Task.t) : string := Plan.add_task "" t.

(** The strings of a list, one after the other. *)
Definition concat_strings (l : list string) : string := String.concat "" l.

(** A small plan, and the provider answer of scenario B of the
    specification: fenced JSON with one risk and no monitoring checkpoints. *)
Definition sample_plan : Plan.t :=
  Plan.mk "Todo" "An app" 4
    [ Milestone.mk "MVP" "First version" 2 ["API"]
        [ Task.mk "Design" "Draw it" 8 [] false;
          Task.mk "Build" "Code it" 16 ["Design"; "Setup"] true ]
        ["Works"] ]
    [ Risk.mk "Delay" "Late" "High" "Low" "Buffer" ]
    ["Weekly"] ["Build"].

Definition delay_risk_json : string :=
  "{" +:+ dq "title" +:+ ": " +:+ dq "Delay" +:+ ", "
      +:+ dq "description" +:+ ": " +:+ dq "Late" +:+ ", "
      +:+ dq "impact" +:+ ": " +:+ dq "High" +:+ ", "
      +:+ dq "probability" +:+ ": " +:+ dq "Low" +:+ ", "
      +:+ dq "mitigation" +:+ ": " +:+ dq "Buffer" +:+ "}".

Definition scenario_b_json : string :=
  "{" +:+ dq "project_name" +:+ ": " +:+ dq "X" +:+ ", "
      +:+ dq "risks" +:+ ": [" +:+ delay_risk_json +:+ "]}".

Definition scenario_b_data : gmap string value :=
  {[ "project_name" := VStr "X";
     "risks" := VList [risk_dump (Risk.mk "Delay" "Late" "High" "Low" "Buffer")] ]}.

(** [json.loads] on the one text of the scenario; any other text is taken
    to be no JSON. *)
Definition scenario_b_provider : environment :=
  MkEnvironment
    (fun _ => inr [Some ("```json" +:+ newline +:+ scenario_b_json +:+ newline +:+ "```")])
    (fun text =>
       if String.eqb text scenario_b_json then inr (VDict scenario_b_data)
       else inl (MkExn "JSONDecodeError" true "Expecting value: line 1 column 1 (char 0)")).

(** Inputs on which the properties are exercised. *)
Definition one_risk_data : gmap string value :=
  {[ "project_name" := VStr "X"; "risks" := VList [VStr "only"] ]}.

Definition numeric_risks_data : gmap string value :=
  {[ "project_name" := VStr "X"; "risks" := VInt 5 ]}.

Definition null_risks_data : gmap string value :=
  {[ "project_name" := VStr "X"; "risks" := VNone ]}.

(** A map that needs no repair: the defaults with three placeholder risks. *)
Definition repaired_defaults : gmap string value :=
  <["risks" := VList [generic_risk; generic_risk; generic_risk]]> defaults.

(** The placeholder risk as an instance, a plan with other risks, and the
    plan that the defaults alone make. *)
Definition placeholder_risk : Risk.t :=
  Risk.mk "Generic Risk" "Standard project risk" "Medium" "Medium"
    "Monitor and adjust as needed".

Definition with_risks (p : Plan.t) (rs : list Risk.t) : Plan.t :=
  Plan.mk (Plan.project_name p) (Plan.project_summary p) (Plan.total_weeks p)
    (Plan.milestones p) rs (Plan.monitoring_checkpoints p)
    (Plan.parallel_opportunities p).

Definition three_risks (rs : list Risk.t) : list Risk.t :=
  take 3 (rs ++ replicate (3 - length rs) placeholder_risk).

Definition default_plan : Plan.t :=
  Plan.mk "Untitled Project" "No summary provided" 4 []
    [placeholder_risk; placeholder_risk; placeholder_risk] [] [].

(** A provider whose answer parses to the given value. *)
Definition answering (text : string) (parsed : value) : environment :=
  MkEnvironment (fun _ => inr [Some text]) (fun _ => inr parsed).

(** The text that [to_markdown] writes for the risk numbered [i]. *)
Definition risk_block (i : Z) (r : Risk.t) : string := Plan.add_risk "" (i, r).

(** A list of timeline entries in ascending order of week, and the entries
    of one week in the order of the list. *)
Definition sorted_by_week (l : list App.timeline_entry) : Prop :=
  StronglySorted (fun a b => (App.Week a <= App.Week b)%Z) l.

Definition of_week (w : Z) (l : list App.timeline_entry) : list App.timeline_entry :=
  filter (fun e => App.Week e = w) l.

(** The line that [to_markdown] writes for an item of a bulleted list. *)
Definition bullet (x : string) : string := "- " +:+ x +:+ newline.

(* ===================================================================== *)
(** * Properties of [validate_json_structure]                             *)
(* ===================================================================== *)

Section ValidateFacts.

Implicit Types (m : gmap string value) (l : list value) (d : value).

Lemma fill_field_union m kv (L : gmap string value) :
  fill_field m kv ∪ L = m ∪ <[kv.1 := kv.2]> L.
Proof.
  destruct kv as [k v]; unfold fill_field; simpl.
  apply map_eq; intros i. case_bool_decide as Hk.
  - rewrite !lookup_union. destruct (decide (k = i)) as [->|Hne].
    + destruct Hk as [x Hx]. rewrite Hx, lookup_insert_eq.
      by destruct (L !! i).
    + by rewrite lookup_insert_ne.
  - rewrite !lookup_union. destruct (decide (k = i)) as [->|Hne].
    + rewrite !lookup_insert_eq.
      assert (m !! i = None) as -> by (by apply eq_None_not_Some).
      by destruct (L !! i).
    + by rewrite !lookup_insert_ne.
Qed.

Lemma ensure_field_dict m kv :
  ensure_field kv (VDict m) = (VDict (fill_field m kv), Ok tt).
Proof.
  destruct kv as [k v].
  unfold ensure_field, data_contains, data_setitem, bind, get_data, lift,
    set_data, ret, fill_field; simpl.
  by case_bool_decide.
Qed.

Lemma for_each_fill (fields : list (string * value)) m :
  for_each fields ensure_field (VDict m)
  = (VDict (m ∪ list_to_map fields), Ok tt).
Proof.
  revert m. induction fields as [|kv fields IH]; intros m.
  - simpl. unfold ret. by rewrite (right_id_L ∅ (∪)).
  - cbn [for_each]. unfold bind at 1. rewrite ensure_field_dict, IH.
    f_equal. f_equal. destruct kv as [k v].
    change (list_to_map ((k, v) :: fields)) with
      (<[(k, v).1 := (k, v).2]> (list_to_map fields : gmap string value)).
    apply fill_field_union.
Qed.

Lemma ensure_required_fields_dict m :
  ensure_required_fields (VDict m) = (VDict (m ∪ defaults), Ok tt).
Proof. apply for_each_fill. Qed.

Lemma len_risks_dict m r :
  m !! "risks" = Some r -> len_risks (VDict m) = (VDict m, py_len r).
Proof.
  intros Hr. unfold len_risks, data_getitem, bind, get_data, lift; simpl.
  by rewrite Hr.
Qed.

Lemma data_item_append_dict m r x :
  m !! "risks" = Some r ->
  data_item_append "risks" x (VDict m) =
    match py_append r x with
    | Ok r' => (VDict (<["risks" := r']> m), Ok tt)
    | Err e => (VDict m, Err e)
    | OutOfFuel => (VDict m, OutOfFuel)
    end.
Proof.
  intros Hr.
  unfold data_item_append, data_getitem, data_setitem, bind, get_data, lift,
    set_data; simpl.
  rewrite Hr. by destruct (py_append r x).
Qed.

Lemma substring_all (s : string) (n : nat) :
  String.length s <= n -> String.substring 0 n s = s.
Proof.
  revert n. induction s as [|c s IH]; intros [|n] Hn; simpl in *; try done; try lia.
  f_equal. apply IH. lia.
Qed.

Lemma pad_loop fuel m l :
  m !! "risks" = Some (VList l) ->
  3 - length l <= fuel ->
  while_loop fuel (let* n' := len_risks in ret (n' <? 3)%nat)
    (data_item_append "risks" generic_risk) (VDict m)
  = (VDict (<["risks" := VList (l ++ replicate (3 - length l) generic_risk)]> m),
     Ok tt).
Proof.
  revert m l. induction fuel as [|fuel IH]; intros m l Hr Hfuel.
  - assert (3 - length l = 0) as Hz by lia.
    simpl. unfold bind at 1. unfold bind at 1. rewrite (len_risks_dict _ _ Hr).
    simpl. unfold ret at 1.
    assert ((length l <? 3)%nat = false) as -> by (apply Nat.ltb_ge; lia).
    unfold ret. rewrite Hz; simpl. rewrite app_nil_r.
    by rewrite insert_id.
  - simpl. unfold bind at 1. unfold bind at 1. rewrite (len_risks_dict _ _ Hr).
    simpl. unfold ret at 1.
    destruct (length l <? 3)%nat eqn:Hlt.
    + apply Nat.ltb_lt in Hlt. unfold bind at 1.
      rewrite (data_item_append_dict _ _ _ Hr); simpl.
      rewrite (IH _ (l ++ [generic_risk])).
      * rewrite insert_insert_eq. do 3 f_equal.
        rewrite length_app; simpl. rewrite <- app_assoc; simpl.
        replace (3 - length l) with (S (3 - (length l + 1))) by lia. done.
      * by rewrite lookup_insert_eq.
      * rewrite length_app; simpl. lia.
    + apply Nat.ltb_ge in Hlt. unfold ret.
      replace (3 - length l) with 0 by lia. simpl. rewrite app_nil_r.
      by rewrite insert_id.
Qed.

Lemma normalize_risks_dict fuel m r :
  m !! "risks" = Some r ->
  3 <= fuel ->
  normalize_risks fuel (VDict m) =
    match risks_rule r with
    | Ok r' => (VDict (<["risks" := r']> m), Ok tt)
    | Err e => (VDict m, Err e)
    | OutOfFuel => (VDict m, OutOfFuel)
    end.
Proof.
  intros Hr Hfuel. unfold normalize_risks. unfold bind at 1.
  rewrite (len_risks_dict _ _ Hr).
  destruct fuel as [|fuel]; [lia|].
  destruct r as [ | b | z | f | s | l | d]; try done; simpl py_len; cbv beta iota.
  - (* a string *)
    simpl risks_rule.
    destruct (String.length s <? 3)%nat eqn:Hlt.
    + simpl. unfold bind at 1. unfold bind at 1. rewrite (len_risks_dict _ _ Hr).
      simpl. unfold ret at 1. rewrite Hlt. unfold bind at 1.
      by rewrite (data_item_append_dict _ _ _ Hr).
    + unfold bind at 1. rewrite (len_risks_dict _ _ Hr). simpl py_len. cbv beta iota.
      destruct (3 <? String.length s)%nat eqn:Hgt.
      * unfold data_getitem, data_setitem, bind, get_data, lift, set_data; simpl.
        by rewrite Hr.
      * unfold ret. apply Nat.ltb_ge in Hlt, Hgt.
        rewrite substring_all by lia. by rewrite insert_id.
  - (* a list *)
    simpl risks_rule.
    destruct (length l <? 3)%nat eqn:Hlt.
    + apply Nat.ltb_lt in Hlt. rewrite (pad_loop _ _ _ Hr) by lia.
      rewrite take_ge; [done|]. rewrite length_app, length_replicate. lia.
    + apply Nat.ltb_ge in Hlt.
      unfold bind at 1. rewrite (len_risks_dict _ _ Hr). simpl py_len. cbv beta iota.
      replace (3 - length l) with 0 by lia. simpl replicate. rewrite app_nil_r.
      destruct (3 <? length l)%nat eqn:Hgt.
      * unfold data_getitem, data_setitem, bind, get_data, lift, set_data; simpl.
        by rewrite Hr.
      * apply Nat.ltb_ge in Hgt. unfold ret.
        rewrite take_ge by lia. by rewrite insert_id.
  - (* a dict *)
    simpl risks_rule.
    destruct (size d <? 3)%nat eqn:Hlt.
    + simpl. unfold bind at 1. unfold bind at 1. rewrite (len_risks_dict _ _ Hr).
      simpl. unfold ret at 1. rewrite Hlt. unfold bind at 1.
      by rewrite (data_item_append_dict _ _ _ Hr).
    + unfold bind at 1. rewrite (len_risks_dict _ _ Hr). simpl py_len. cbv beta iota.
      destruct (3 <? size d)%nat eqn:Hgt.
      * unfold data_getitem, data_setitem, bind, get_data, lift, set_data; simpl.
        by rewrite Hr.
      * unfold ret. by rewrite insert_id.
Qed.

Lemma defaults_risks m : is_Some ((m ∪ defaults) !! "risks").
Proof.
  rewrite lookup_union. destruct (m !! "risks"); [by eexists|].
  by eexists.
Qed.

(** The whole function on a dict, in closed form, for any fuel from 3 on. *)
Lemma validate_json_structure_fuel_dict fuel m r :
  3 <= fuel ->
  (m ∪ defaults) !! "risks" = Some r ->
  validate_json_structure_fuel fuel (VDict m) =
    match risks_rule r with
    | Ok r' => let d' := VDict (<["risks" := r']> (m ∪ defaults)) in (d', Ok d')
    | Err e => (VDict (m ∪ defaults), Err e)
    | OutOfFuel => (VDict (m ∪ defaults), OutOfFuel)
    end.
Proof.
  intros Hfuel Hr. unfold validate_json_structure_fuel.
  unfold bind at 1. rewrite ensure_required_fields_dict.
  unfold bind at 1. rewrite (normalize_risks_dict _ _ _ Hr) by lia.
  by destruct (risks_rule r).
Qed.

Lemma validate_json_structure_dict m r :
  (m ∪ defaults) !! "risks" = Some r ->
  validate_json_structure (VDict m) =
    match risks_rule r with
    | Ok r' => let d' := VDict (<["risks" := r']> (m ∪ defaults)) in (d', Ok d')
    | Err e => (VDict (m ∪ defaults), Err e)
    | OutOfFuel => (VDict (m ∪ defaults), OutOfFuel)
    end.
Proof. apply validate_json_structure_fuel_dict. lia. Qed.

Lemma defaults_lookup_name k :
  k ∈ required_names -> is_Some (defaults !! k).
Proof.
  unfold required_names, required_fields; simpl. intros Hk.
  repeat (apply elem_of_cons in Hk as [->|Hk]; [by eexists|]).
  by apply elem_of_nil in Hk.
Qed.

Lemma defaults_lookup_other k :
  k ∉ required_names -> defaults !! k = None.
Proof. intros Hk. by apply not_elem_of_list_to_map_1. Qed.

Lemma defaults_lookup_field k v :
  (k, v) ∈ required_fields -> defaults !! k = Some v.
Proof.
  unfold required_fields. intros Hk.
  repeat (apply elem_of_cons in Hk as [[= -> ->]|Hk]; [done|]).
  by apply elem_of_nil in Hk.
Qed.

Lemma filled_lookup_name m k :
  k ∈ required_names -> is_Some ((m ∪ defaults) !! k).
Proof.
  intros Hk. rewrite lookup_union.
  destruct (defaults_lookup_name k Hk) as [v ->]. by destruct (m !! k); eexists.
Qed.

Lemma filled_lookup_present m k v :
  m !! k = Some v -> (m ∪ defaults) !! k = Some v.
Proof. intros Hk. by apply lookup_union_Some_l. Qed.

Lemma filled_lookup_other m k :
  k ∉ required_names -> (m ∪ defaults) !! k = m !! k.
Proof.
  intros Hk. rewrite lookup_union, (defaults_lookup_other k Hk).
  by destruct (m !! k).
Qed.

Lemma filled_absorbs_defaults m : (m ∪ defaults) ∪ defaults = m ∪ defaults.
Proof. by rewrite <- (assoc_L (∪)), (idemp_L (∪)). Qed.

Lemma risks_in_names : "risks" ∈ required_names.
Proof. unfold required_names, required_fields; simpl. set_solver. Qed.

Lemma risks_rule_len r r' : risks_rule r = Ok r' -> py_len r' = Ok 3.
Proof.
  destruct r as [ | b | z | f | s | l | d]; simpl; try done.
  - destruct (String.length s <? 3)%nat eqn:Hlt; [done|]. intros [= <-]. simpl.
    apply Nat.ltb_ge in Hlt. f_equal.
    clear -Hlt. revert Hlt. generalize 3. intros n. revert s.
    induction n as [|n IH]; intros [|c s] Hlen; simpl in *; try done; try lia.
    f_equal. apply IH. lia.
  - intros [= <-]. simpl. f_equal. rewrite length_take, length_app, length_replicate. lia.
  - destruct (size d <? 3)%nat eqn:Hlt; [done|].
    destruct (3 <? size d)%nat eqn:Hgt; [done|]. intros [= <-]. simpl.
    apply Nat.ltb_ge in Hlt, Hgt. f_equal. lia.
Qed.

Lemma risks_rule_fixed r r' : risks_rule r = Ok r' -> risks_rule r' = Ok r'.
Proof.
  intros Hr. pose proof (risks_rule_len _ _ Hr) as Hlen.
  destruct r' as [ | b | z | f | s | l | d]; simpl in *; try done.
  - injection Hlen as Hlen. rewrite Hlen. simpl. by rewrite substring_all by lia.
  - injection Hlen as Hlen. rewrite Hlen. simpl. rewrite app_nil_r.
    by rewrite take_ge by lia.
  - injection Hlen as Hlen. by rewrite Hlen.
Qed.

Lemma risks_rule_accepted r : risks_accepted (Some r) -> exists r', risks_rule r = Ok r'.
Proof.
  destruct r as [ | b | z | f | s | l | d]; simpl; try done.
  - intros Hs. assert ((String.length s <? 3)%nat = false) as -> by (apply Nat.ltb_ge; lia).
    by eexists.
  - by eexists.
  - intros ->. by eexists.
Qed.

(** The class of the exception, where the code fixes it: a value without
    [len] stops line 36, a short string or a small map has no [append] at
    line 38.  For a map of more than three entries line 46 uses a slice as
    a key, and nothing is said of the class. *)
Lemma risks_rule_rejected_class r :
  ~ risks_accepted (Some r) ->
  exists e, risks_rule r = Err e /\
    match r with
    | VNone | VBool _ | VInt _ | VFloat _ => exn_name e = "TypeError"
    | VStr _ => exn_name e = "AttributeError"
    | VDict d => size d < 3 -> exn_name e = "AttributeError"
    | VList _ => False
    end.
Proof.
  destruct r as [ | b | z | f | s | l | d]; simpl; intros Hr.
  - by eexists.
  - by eexists.
  - by eexists.
  - by eexists.
  - assert ((String.length s <? 3)%nat = true) as -> by (apply Nat.ltb_lt; lia).
    by eexists.
  - exfalso. by apply Hr.
  - destruct (size d <? 3)%nat eqn:Hlt; [by eexists|].
    destruct (3 <? size d)%nat eqn:Hgt.
    + eexists. split; [done|]. apply Nat.ltb_ge in Hlt. lia.
    + apply Nat.ltb_ge in Hlt, Hgt. lia.
Qed.

(** The three-iteration bound on the padding loop is never reached. *)
Lemma validate_json_structure_never_out_of_fuel m :
  validate_json_structure_result (VDict m) <> OutOfFuel.
Proof.
  destruct (defaults_risks m) as [r Hr].
  unfold validate_json_structure_result.
  rewrite (validate_json_structure_dict m r Hr).
  destruct r as [ | b | z | f | s | l | d]; simpl; try done.
  - by destruct (String.length s <? 3)%nat.
  - destruct (size d <? 3)%nat; [done|]. by destruct (3 <? size d)%nat.
Qed.

Lemma ensure_field_not_dict d kv :
  (forall m, d <> VDict m) ->
  ensure_field kv d = (d, Ok tt) \/ exists e, ensure_field kv d = (d, Err e).
Proof.
  intros Hd. destruct kv as [k v].
  unfold ensure_field, data_contains, data_setitem, bind, get_data, lift,
    set_data, ret.
  destruct d as [ | b | z | f | s | l | m]; simpl; try (by right; eexists).
  - destruct (str_contains k s); simpl; [by left|by right; eexists].
  - destruct (existsb (is_VStr k) l); simpl; [by left|by right; eexists].
  - by destruct (Hd m).
Qed.

Lemma for_each_not_dict d (fields : list (string * value)) :
  (forall m, d <> VDict m) ->
  for_each fields ensure_field d = (d, Ok tt) \/
  exists e, for_each fields ensure_field d = (d, Err e).
Proof.
  intros Hd. induction fields as [|kv fields IH]; [by left|].
  cbn [for_each]. unfold bind.
  destruct (ensure_field_not_dict d kv Hd) as [Hk | [e Hk]]; rewrite Hk.
  - exact IH.
  - right. by exists e.
Qed.

Lemma normalize_risks_not_dict fuel d :
  (forall m, d <> VDict m) ->
  exists e, normalize_risks fuel d = (d, Err e) /\
            forall fuel', normalize_risks fuel' d = (d, Err e).
Proof.
  intros Hd. unfold normalize_risks, len_risks, data_getitem, bind, get_data, lift.
  destruct d as [ | b | z | f | s | l | m]; simpl; try (by eexists).
  by destruct (Hd m).
Qed.

(** On anything but a dict the call raises, whatever the fuel, and leaves
    its argument alone. *)
Lemma validate_json_structure_fuel_not_dict fuel d :
  (forall m, d <> VDict m) ->
  exists e, validate_json_structure_fuel fuel d = (d, Err e) /\
            forall fuel', validate_json_structure_fuel fuel' d = (d, Err e).
Proof.
  intros Hd. unfold validate_json_structure_fuel, ensure_required_fields.
  destruct (for_each_not_dict d required_fields Hd) as [Hf | [e Hf]].
  - destruct (normalize_risks_not_dict fuel d Hd) as (e & He & Hall).
    exists e. split.
    + unfold bind at 1. rewrite Hf. unfold bind at 1. by rewrite He.
    + intros fuel'. unfold bind at 1. rewrite Hf. unfold bind at 1.
      by rewrite Hall.
  - exists e. split; [|intros fuel']; unfold bind at 1; by rewrite Hf.
Qed.

Lemma validate_json_structure_not_dict d :
  (forall m, d <> VDict m) ->
  exists e, validate_json_structure d = (d, Err e).
Proof.
  intros Hd.
  destruct (validate_json_structure_fuel_not_dict 3 d Hd) as (e & He & _).
  by exists e.
Qed.

(** The fuel of [validate_json_structure] is enough: more fuel gives the
    same outcome, and the outcome is never [OutOfFuel]. *)
Lemma validate_json_structure_enough_fuel fuel d :
  3 <= fuel ->
  validate_json_structure_fuel fuel d = validate_json_structure d.
Proof.
  intros Hfuel.
  assert ((exists m, d = VDict m) \/ (forall m, d <> VDict m)) as [[m ->]|Hd].
  { destruct d; try (by right); left; by eexists. }
  - destruct (defaults_risks m) as [r Hr].
    rewrite (validate_json_structure_fuel_dict fuel m r Hfuel Hr).
    by rewrite (validate_json_structure_dict m r Hr).
  - destruct (validate_json_structure_fuel_not_dict fuel d Hd) as (e & He & Hall).
    unfold validate_json_structure. by rewrite He, Hall.
Qed.

Lemma validate_json_structure_result_total d :
  validate_json_structure_result d <> OutOfFuel.
Proof.
  destruct d as [ | b | z | f | s | l | m];
    try (by apply validate_json_structure_never_out_of_fuel);
    unfold validate_json_structure_result;
    match goal with
    | |- (validate_json_structure ?d).2 <> _ =>
        destruct (validate_json_structure_not_dict d) as [e ->]; [done|done]
    end.
Qed.

(** C2.  When the risks field of the input map is a sequence [l] (or is
    absent, which the defaulting loop turns into the empty sequence), the
    call returns the map it was given, and its risks field is a sequence of
    length exactly 3: the first three entries of [l] when [l] has at least
    three, and otherwise [l] followed by copies of the placeholder risk,
    whose five fields are the ones the specification names. *)
Theorem validate_risks_exactly_three m l :
  m !! "risks" = Some (VList l) \/ (m !! "risks" = None /\ l = []) ->
  exists m' out,
    validate_json_structure (VDict m) = (VDict m', Ok (VDict m')) /\
    m' !! "risks" = Some (VList out) /\
    length out = 3 /\
    (3 <= length l -> out = take 3 l) /\
    (length l < 3 -> out = l ++ replicate (3 - length l) generic_risk) /\
    generic_risk =
      VDict (list_to_map
        [ ("title", VStr "Generic Risk");
          ("description", VStr "Standard project risk");
          ("impact", VStr "Medium");
          ("probability", VStr "Medium");
          ("mitigation", VStr "Monitor and adjust as needed") ]).
Proof.
  intros Hm.
  assert ((m ∪ defaults) !! "risks" = Some (VList l)) as Hr.
  { rewrite lookup_union. destruct Hm as [-> | [-> ->]]; done. }
  rewrite (validate_json_structure_dict m _ Hr). simpl.
  eexists _, _. split; [reflexivity|].
  split; [by rewrite lookup_insert_eq|].
  split; [rewrite length_take, length_app, length_replicate; lia|].
  split; [|split].
  - intros Hl. replace (3 - length l) with 0 by lia. simpl. by rewrite app_nil_r.
  - intros Hl. rewrite take_ge; [done|]. rewrite length_app, length_replicate. lia.
  - reflexivity.
Qed.

(** C3, as amended.  When the risks field is absent or a sequence, the call
    returns a map in which all seven fields are present; every missing field
    other than risks holds its named default, and a missing risks field,
    first defaulted to the empty sequence, holds three placeholder risks. *)
Theorem validate_fills_missing_fields m :
  m !! "risks" = None \/ (exists l, m !! "risks" = Some (VList l)) ->
  exists m',
    validate_json_structure (VDict m) = (VDict m', Ok (VDict m')) /\
    (forall k v, (k, v) ∈ required_fields ->
       is_Some (m' !! k) /\
       (m !! k = None -> k <> "risks" -> m' !! k = Some v)) /\
    (m !! "risks" = None ->
       m' !! "risks" = Some (VList (replicate 3 generic_risk))).
Proof.
  intros Hm.
  assert (exists l, (m ∪ defaults) !! "risks" = Some (VList l) /\
                    (m !! "risks" = None -> l = [])) as (l & Hr & Hl).
  { rewrite lookup_union. destruct Hm as [-> | [l ->]]; [by exists []|].
    exists l. by split. }
  rewrite (validate_json_structure_dict m _ Hr). simpl.
  eexists. split; [reflexivity|]. split.
  - intros k v Hkv. pose proof (defaults_lookup_field k v Hkv) as Hd. split.
    + destruct (decide (k = "risks")) as [->|Hne].
      * rewrite lookup_insert_eq. by eexists.
      * rewrite lookup_insert_ne by done. rewrite lookup_union, Hd.
        by destruct (m !! k); eexists.
    + intros Hnone Hne. rewrite lookup_insert_ne by done.
      by rewrite lookup_union, Hnone, Hd.
  - intros Hnone. rewrite lookup_insert_eq. by rewrite (Hl Hnone).
Qed.

(** The loop of lines 31-33 by itself fills every missing field, risks
    included, with its named default and never raises on a dict. *)
Lemma ensure_required_fields_defaults m :
  exists m',
    ensure_required_fields (VDict m) = (VDict m', Ok tt) /\
    forall k v, (k, v) ∈ required_fields ->
      m' !! k = match m !! k with Some x => Some x | None => Some v end.
Proof.
  exists (m ∪ defaults). split; [apply ensure_required_fields_dict|].
  intros k v Hkv. rewrite lookup_union, (defaults_lookup_field k v Hkv).
  by destruct (m !! k).
Qed.

(** C5, as amended.  The call returns, with all seven fields present and a
    risks value of length 3, exactly on the maps whose risks field is absent,
    a sequence, a string of at least three characters or a map of exactly
    three entries.  On every other map it raises: [TypeError] when risks is
    a number, a boolean or [None], [AttributeError] when risks is a string
    of fewer than three characters or a map of fewer than three entries,
    and, when risks is a map of more than three entries, the exception of
    the lookup of the slice, whose class is left open. *)
Theorem validate_returns_iff_risks_accepted m :
  (risks_accepted (m !! "risks") ->
     exists m', validate_json_structure (VDict m) = (VDict m', Ok (VDict m')) /\
                minimum_shape m') /\
  (~ risks_accepted (m !! "risks") ->
     exists m' e,
       validate_json_structure (VDict m) = (VDict m', Err e) /\
       match m !! "risks" with
       | Some (VNone | VBool _ | VInt _ | VFloat _) => exn_name e = "TypeError"
       | Some (VStr _) => exn_name e = "AttributeError"
       | Some (VDict d) => size d < 3 -> exn_name e = "AttributeError"
       | Some (VList _) | None => False
       end).
Proof.
  destruct (defaults_risks m) as [r Hr].
  rewrite (validate_json_structure_dict m r Hr).
  split; intros H.
  - assert (risks_accepted (Some r)) as Hacc.
    { destruct (m !! "risks") as [x|] eqn:Hx.
      - rewrite (lookup_union_Some_l _ _ _ _ Hx) in Hr. by injection Hr as <-.
      - rewrite (lookup_union_r _ _ _ Hx) in Hr. by injection Hr as <-. }
    destruct (risks_rule_accepted r Hacc) as [r' Hr'].
    rewrite Hr'. simpl. eexists. split; [reflexivity|]. split.
    + intros k Hk. destruct (decide (k = "risks")) as [->|Hne].
      * rewrite lookup_insert_eq. by eexists.
      * rewrite lookup_insert_ne by done. by apply filled_lookup_name.
    + exists r'. split; [by rewrite lookup_insert_eq|].
      by apply (risks_rule_len r).
  - destruct (m !! "risks") as [x|] eqn:Hx; [|by destruct H].
    rewrite (lookup_union_Some_l _ _ _ _ Hx) in Hr. injection Hr as <-.
    destruct (risks_rule_rejected_class x H) as (e & He & Hclass).
    rewrite He. exists (m ∪ defaults), e. split; [done|].
    by destruct x.
Qed.

(** C7.  Applying [validate_json_structure] to its own return value gives
    that value again, and a call that raises raises the same exception:
    two applications are the same as one. *)
Theorem validate_json_structure_idempotent m :
  rbind (validate_json_structure_result (VDict m)) validate_json_structure_result
  = validate_json_structure_result (VDict m).
Proof.
  destruct (defaults_risks m) as [r Hr].
  unfold validate_json_structure_result at 1 3.
  rewrite (validate_json_structure_dict m r Hr).
  destruct (risks_rule r) as [r'| e |] eqn:Hrule; simpl; try done.
  unfold validate_json_structure_result.
  rewrite (validate_json_structure_dict _ r').
  - rewrite (risks_rule_fixed _ _ Hrule). simpl.
    rewrite <- insert_union_l, filled_absorbs_defaults.
    by rewrite insert_insert_eq.
  - rewrite <- insert_union_l, filled_absorbs_defaults.
    by rewrite lookup_insert_eq.
Qed.

(** C10.  Whatever the input map, the content of the map after the call,
    which is also the return value when the call returns, agrees with the
    input on every key outside the seven required fields, and on every
    required field other than risks that the input already had, whatever the
    type of its value. *)
Theorem validate_json_structure_frame m :
  exists m',
    (validate_json_structure (VDict m)).1 = VDict m' /\
    (forall v, validate_json_structure_result (VDict m) = Ok v -> v = VDict m') /\
    (forall k, k ∉ required_names -> m' !! k = m !! k) /\
    (forall k x, k ∈ required_names -> k <> "risks" ->
       m !! k = Some x -> m' !! k = Some x).
Proof.
  destruct (defaults_risks m) as [r Hr].
  unfold validate_json_structure_result.
  rewrite (validate_json_structure_dict m r Hr).
  destruct (risks_rule r) as [r'| e |]; simpl.
  - eexists. split; [reflexivity|]. split; [by intros v [= <-]|]. split.
    + intros k Hk. rewrite lookup_insert_ne.
      * by apply filled_lookup_other.
      * intros <-. apply Hk, risks_in_names.
    + intros k x _ Hne Hk. rewrite lookup_insert_ne by done.
      by apply filled_lookup_present.
  - eexists. split; [reflexivity|]. split; [done|]. split.
    + intros k Hk. by apply filled_lookup_other.
    + intros k x _ _ Hk. by apply filled_lookup_present.
  - eexists. split; [reflexivity|]. split; [done|]. split.
    + intros k Hk. by apply filled_lookup_other.
    + intros k x _ _ Hk. by apply filled_lookup_present.
Qed.

End ValidateFacts.

Lemma validate_risks_exactly_three_witness :
  (one_risk_data !! "risks" = Some (VList [VStr "only"]) \/
   (one_risk_data !! "risks" = None /\ [VStr "only"] = [])) /\
  exists m' out,
    validate_json_structure (VDict one_risk_data) = (VDict m', Ok (VDict m')) /\
    m' !! "risks" = Some (VList out) /\
    length out = 3 /\
    (3 <= length [VStr "only"] -> out = take 3 [VStr "only"]) /\
    (length [VStr "only"] < 3 ->
       out = [VStr "only"] ++ replicate (3 - length [VStr "only"]) generic_risk) /\
    generic_risk =
      VDict (list_to_map
        [ ("title", VStr "Generic Risk");
          ("description", VStr "Standard project risk");
          ("impact", VStr "Medium");
          ("probability", VStr "Medium");
          ("mitigation", VStr "Monitor and adjust as needed") ]).
Proof.
  split; [left; reflexivity|].
  apply (validate_risks_exactly_three one_risk_data [VStr "only"]).
  left. reflexivity.
Defined.

(** C3 as stated fails on the empty map: the risks field of the returned
    map is not its named default, the empty sequence, but three
    placeholders. *)
Lemma validate_empty_map_risks_not_default :
  exists m',
    validate_json_structure (VDict ∅) = (VDict m', Ok (VDict m')) /\
    m' !! "risks" = Some (VList [generic_risk; generic_risk; generic_risk]) /\
    m' !! "risks" <> Some (VList []).
Proof.
  exists (<["risks" := VList [generic_risk; generic_risk; generic_risk]]> defaults).
  split; [by vm_compute|]. rewrite lookup_insert_eq. by split.
Qed.

Lemma validate_fills_missing_fields_witness :
  ((∅ : gmap string value) !! "risks" = None \/
   (exists l, (∅ : gmap string value) !! "risks" = Some (VList l))) /\
  exists m',
    validate_json_structure (VDict ∅) = (VDict m', Ok (VDict m')) /\
    (forall k v, (k, v) ∈ required_fields ->
       is_Some (m' !! k) /\
       ((∅ : gmap string value) !! k = None -> k <> "risks" -> m' !! k = Some v)) /\
    ((∅ : gmap string value) !! "risks" = None ->
       m' !! "risks" = Some (VList (replicate 3 generic_risk))).
Proof.
  split; [left; reflexivity|].
  apply (validate_fills_missing_fields ∅). left. reflexivity.
Defined.

(** C5 as stated fails: with risks bound to a number, or to [None], the
    call raises [TypeError]. *)
Lemma validate_raises_on_risks_without_length :
  validate_json_structure_result (VDict numeric_risks_data)
    = Err (TypeError "object of type 'int' has no len()") /\
  validate_json_structure_result (VDict null_risks_data)
    = Err (TypeError "object of type 'NoneType' has no len()").
Proof. by vm_compute. Qed.

(* ===================================================================== *)
(** * Properties of [clean_json_response]                                 *)
(* ===================================================================== *)

#[local] Arguments String.append !_ _ / : simpl nomatch.

Section StringFacts.

Implicit Types (s t u : string) (c : ascii).

Lemma append_nil_l s : "" +:+ s = s.
Proof. done. Qed.

Lemma append_nil_r s : s +:+ "" = s.
Proof. induction s as [|c s IH]; simpl; [done|by rewrite IH]. Qed.

Lemma append_assoc s t u : (s +:+ t) +:+ u = s +:+ (t +:+ u).
Proof. induction s as [|c s IH]; simpl; [done|by rewrite IH]. Qed.

Lemma length_append s t :
  String.length (s +:+ t) = String.length s + String.length t.
Proof. induction s as [|c s IH]; simpl; [done|by rewrite IH]. Qed.

Lemma substring_append_l s t :
  String.substring 0 (String.length s) (s +:+ t) = s.
Proof.
  induction s as [|c s IH]; simpl.
  - by destruct t.
  - by rewrite IH.
Qed.

Lemma strip_prefix_Some l s s' : strip_prefix l s = Some s' -> s = l +:+ s'.
Proof.
  revert s. induction l as [|a l IH]; intros [|b s]; simpl; try done.
  - by intros [= ->].
  - by intros [= ->].
  - destruct (Ascii.eqb_spec a b) as [->|]; [|done].
    intros H. by rewrite (IH _ H).
Qed.

Lemma strip_prefix_append l s : strip_prefix l (l +:+ s) = Some s.
Proof.
  induction l as [|a l IH]; simpl; [done|]. by rewrite Ascii.eqb_refl.
Qed.

Lemma all_chars_append p s t :
  all_chars p (s +:+ t) = all_chars p s && all_chars p t.
Proof.
  induction s as [|c s IH]; simpl; [done|]. rewrite IH. by rewrite andb_assoc.
Qed.

Lemma lstrip_split s : exists ws, s = ws +:+ lstrip s /\ all_space ws = true.
Proof.
  induction s as [|c s (ws & Hs & Hws)]; simpl.
  - by exists "".
  - destruct (is_space c) eqn:Hc.
    + exists (String c ws). simpl. split; [by rewrite <- Hs|].
      unfold all_space in *; simpl. by rewrite Hc.
    + by exists "".
Qed.

Lemma lstrip_space_append ws s : all_space ws = true -> lstrip (ws +:+ s) = lstrip s.
Proof.
  unfold all_space. induction ws as [|c ws IH]; simpl; [done|].
  intros [Hc Hws]%andb_true_iff. rewrite Hc. by apply IH.
Qed.

Lemma lstrip_idem s : lstrip (lstrip s) = lstrip s.
Proof.
  induction s as [|c s IH]; simpl; [done|].
  destruct (is_space c) eqn:Hc; [done|]. simpl. by rewrite Hc.
Qed.

Lemma rstrip_all_space ws : all_space ws = true -> rstrip ws = "".
Proof.
  unfold all_space. induction ws as [|c ws IH]; simpl; [done|].
  intros [Hc Hws]%andb_true_iff. by rewrite (IH Hws), Hc.
Qed.

Lemma rstrip_space_append s ws : all_space ws = true -> rstrip (s +:+ ws) = rstrip s.
Proof.
  intros Hws. induction s as [|c s IH]; simpl.
  - by apply rstrip_all_space.
  - by rewrite IH.
Qed.

Lemma rstrip_nonspace_end s c :
  is_space c = false -> rstrip (s +:+ String c "") = s +:+ String c "".
Proof.
  intros Hc. induction s as [|a s IH]; simpl.
  - by rewrite Hc.
  - rewrite IH. by destruct s.
Qed.

End StringFacts.

Section RegexFacts.

Implicit Types (s t u p q m : string) (c : ascii).

(** A star followed by nothing takes the longest run. *)
Lemma star_space_Some s : star_match is_space Some s = Some (lstrip s).
Proof.
  induction s as [|c s IH]; simpl; [done|].
  destruct (is_space c); [by rewrite IH|done].
Qed.

Lemma match_json_fence s :
  match_here re_json_fence s = lstrip <$> strip_prefix "```json" s.
Proof.
  unfold match_here, re_json_fence. cbn [match_re].
  destruct (strip_prefix "```json" s) as [s'|]; [|done].
  simpl. apply star_space_Some.
Qed.

Lemma star_space_dollar s :
  star_match is_space (match_re Dollar Some) s
  = if all_space s then Some "" else None.
Proof.
  unfold all_space. induction s as [|c s IH]; [done|].
  cbn [star_match all_chars]. destruct (is_space c) eqn:Hc; cbn [andb].
  - rewrite IH. destruct (all_chars is_space s) eqn:Hs; [done|].
    by destruct s.
  - destruct s as [|c' s]; [|done]. cbn.
    destruct (Ascii.eqb_spec c "010") as [->|]; [|done].
    by vm_compute in Hc.
Qed.

Lemma match_closing_fence s :
  match_here re_closing_fence s =
    match strip_prefix "```" s with
    | Some s' => if all_space s' then Some "" else None
    | None => None
    end.
Proof.
  unfold match_here, re_closing_fence. cbn [match_re].
  destruct (strip_prefix "```" s) as [s'|]; [|done].
  apply star_space_dollar.
Qed.

(** Passing over the characters of a match. *)
Lemma re_sub_from_skip r repl w s :
  re_sub_from (String.length w) r repl (w +:+ s) = re_sub_from 0 r repl s.
Proof. induction w as [|c w IH]; simpl; [by destruct s|done]. Qed.

Lemma re_sub_match r repl c w rest :
  match_here r (String c w +:+ rest) = Some rest ->
  re_sub r repl (String c w +:+ rest) = repl +:+ re_sub r repl rest.
Proof.
  intros Hm. unfold re_sub. cbn [append re_sub_from]. cbn [append] in Hm. rewrite Hm.
  cbn [String.length]. rewrite length_append.
  replace (S (String.length w + String.length rest) - String.length rest)
    with (S (String.length w)) by lia.
  cbn [Nat.eqb]. f_equal.
  replace (S (String.length w) - 1) with (String.length w) by lia.
  apply re_sub_from_skip.
Qed.

Lemma re_sub_match_append r repl l rest :
  l <> "" ->
  match_here r (l +:+ rest) = Some rest ->
  re_sub r repl (l +:+ rest) = repl +:+ re_sub r repl rest.
Proof. destruct l as [|c w]; [done|]. intros _. apply re_sub_match. Qed.

Lemma re_sub_no_match r repl c s :
  match_here r (String c s) = None ->
  re_sub r repl (String c s) = String c (re_sub r repl s).
Proof. intros Hm. unfold re_sub. cbn [re_sub_from]. by rewrite Hm. Qed.

Lemma re_search_here r s rest :
  match_here r s = Some rest ->
  re_search r s = Some (String.substring 0 (String.length s - String.length rest) s).
Proof. intros Hm. destruct s; cbn [re_search]; by rewrite Hm. Qed.

Lemma re_search_later r c s :
  match_here r (String c s) = None -> re_search r (String c s) = re_search r s.
Proof. intros Hm. cbn [re_search]. by rewrite Hm. Qed.

End RegexFacts.

Section CleanFacts.

Implicit Types (s t u p q m ws : string) (c : ascii).

Lemma starts_with_None l s : starts_with l s = false -> strip_prefix l s = None.
Proof. unfold starts_with. by destruct (strip_prefix l s). Qed.

Lemma sub_json_fence_match s s' :
  strip_prefix "```json" s = Some s' ->
  re_sub re_json_fence "" s = re_sub re_json_fence "" (lstrip s').
Proof.
  intros Hs. pose proof (strip_prefix_Some _ _ _ Hs) as ->.
  destruct (lstrip_split s') as (ws & Hs' & Hws).
  rewrite Hs' at 1. rewrite <- append_assoc.
  rewrite re_sub_match_append; [done|by destruct ws|].
  rewrite match_json_fence, append_assoc, strip_prefix_append. simpl.
  by rewrite (lstrip_space_append _ _ Hws), lstrip_idem.
Qed.

Lemma sub_json_fence_no_match c s :
  starts_with "```json" (String c s) = false ->
  re_sub re_json_fence "" (String c s) = String c (re_sub re_json_fence "" s).
Proof.
  intros Hs. apply re_sub_no_match. rewrite match_json_fence.
  by rewrite (starts_with_None _ _ Hs).
Qed.

Lemma sub_json_fence_spec s : openers_removed s (re_sub re_json_fence "" s).
Proof.
  remember (String.length s) as n eqn:Hn.
  revert s Hn. induction (lt_wf n) as [n _ IH]; intros s ->.
  destruct s as [|c s]; [constructor|].
  destruct (strip_prefix "```json" (String c s)) as [s'|] eqn:Hs.
  - rewrite (sub_json_fence_match _ _ Hs).
    pose proof (strip_prefix_Some _ _ _ Hs) as Heq.
    destruct (lstrip_split s') as (ws & Hs' & Hws).
    rewrite Heq. rewrite Hs' at 1.
    apply openers_fence; [done|apply lstrip_idem|].
    eapply IH; [|reflexivity].
    rewrite Heq. rewrite Hs' at 2. rewrite !length_append. simpl. lia.
  - rewrite sub_json_fence_no_match by (unfold starts_with; by rewrite Hs).
    apply openers_char; [unfold starts_with; by rewrite Hs|].
    eapply IH; [|reflexivity]. simpl. lia.
Qed.

(** A closer is at the end of the text only where the text says so. *)
Lemma closer_position p ws s' :
  all_space ws = true -> all_space s' = true ->
  p +:+ "```" +:+ ws = "```" +:+ s' -> p = "".
Proof.
  intros Hws Hs' Heq.
  assert (rstrip (p +:+ "```" +:+ ws) = p +:+ "```") as H1.
  { assert (p +:+ "```" +:+ ws = ((p +:+ "``") +:+ "`") +:+ ws) as ->
      by (by rewrite !append_assoc).
    rewrite rstrip_space_append by done.
    rewrite rstrip_nonspace_end by done. by rewrite append_assoc. }
  assert (rstrip ("```" +:+ s') = "```") as H2.
  { by rewrite rstrip_space_append. }
  rewrite Heq, H2 in H1. apply (f_equal String.length) in H1.
  rewrite length_append in H1. simpl in H1. destruct p; [done|simpl in H1; lia].
Qed.

Lemma sub_closing_fence_found p ws :
  all_space ws = true -> re_sub re_closing_fence "" (p +:+ "```" +:+ ws) = p.
Proof.
  intros Hws. induction p as [|c p IH].
  - change ("" +:+ "```" +:+ ws) with ("```" +:+ ws).
    rewrite <- (append_nil_r ("```" +:+ ws)).
    rewrite re_sub_match_append; [done|done|].
    rewrite append_nil_r, match_closing_fence, strip_prefix_append.
    by rewrite Hws.
  - change (String c p +:+ "```" +:+ ws) with (String c (p +:+ "```" +:+ ws)).
    rewrite re_sub_no_match; [by rewrite IH|].
    rewrite match_closing_fence.
    destruct (strip_prefix "```" (String c (p +:+ "```" +:+ ws))) as [s'|] eqn:Hs;
      [|done].
    destruct (all_space s') eqn:Hs'; [|done].
    apply strip_prefix_Some in Hs.
    by pose proof (closer_position (String c p) ws s' Hws Hs' Hs).
Qed.

Lemma sub_closing_fence_absent s :
  (forall p ws, s = p +:+ "```" +:+ ws -> all_space ws = false) ->
  re_sub re_closing_fence "" s = s.
Proof.
  induction s as [|c s IH]; intros Hs; [done|].
  rewrite re_sub_no_match.
  - rewrite IH; [done|]. intros p ws ->. by apply (Hs (String c p)).
  - rewrite match_closing_fence.
    destruct (strip_prefix "```" (String c s)) as [s'|] eqn:Hp; [|done].
    apply strip_prefix_Some in Hp. by rewrite (Hs "" s' Hp).
Qed.

Lemma sub_closing_fence_spec s : closer_removed s (re_sub re_closing_fence "" s).
Proof.
  assert ((exists p ws, s = p +:+ "```" +:+ ws /\ all_space ws = true) \/
          (forall p ws, s = p +:+ "```" +:+ ws -> all_space ws = false))
    as [(p & ws & -> & Hws)|Hno].
  { induction s as [|c s [(p & ws & -> & Hws)|IH]].
    - right. by intros [|? ?] ws.
    - left. by exists (String c p), ws.
    - destruct (strip_prefix "```" (String c s)) as [s'|] eqn:Hp.
      + destruct (all_space s') eqn:Hs'.
        * left. exists "", s'. split; [exact (strip_prefix_Some _ _ _ Hp)|done].
        * right. intros [|c' p] ws Heq.
          -- rewrite Heq in Hp. change ("" +:+ "```" +:+ ws) with ("```" +:+ ws) in Hp.
             rewrite strip_prefix_append in Hp. congruence.
          -- injection Heq as -> ->. by apply (IH p).
      + right. intros [|c' p] ws Heq.
        * rewrite Heq in Hp. change ("" +:+ "```" +:+ ws) with ("```" +:+ ws) in Hp.
          by rewrite strip_prefix_append in Hp.
        * injection Heq as -> ->. by apply (IH p). }
  - left. exists ws. by rewrite sub_closing_fence_found.
  - right. split; [|done]. by apply sub_closing_fence_absent.
Qed.

(** The brace pattern: the star runs to the end and comes back to the last
    closing brace. *)
Lemma star_any_no_close q :
  no_char "}" q = true ->
  star_match any_char (match_re (Lit "}") Some) q = None.
Proof.
  unfold no_char. induction q as [|c q IH]; [done|].
  cbn [all_chars star_match any_char]. intros [Hc Hq]%andb_true_iff.
  rewrite (IH Hq). cbn [match_re strip_prefix]. rewrite Ascii.eqb_sym.
  by destruct (Ascii.eqb c "}").
Qed.

Lemma star_any_close m q :
  no_char "}" q = true ->
  star_match any_char (match_re (Lit "}") Some) (m +:+ "}" +:+ q) = Some q.
Proof.
  intros Hq. induction m as [|c m IH].
  - change ("" +:+ "}" +:+ q) with (String "}" q).
    cbn [star_match any_char]. by rewrite (star_any_no_close q Hq).
  - change (String c m +:+ "}" +:+ q) with (String c (m +:+ "}" +:+ q)).
    cbn [star_match any_char]. by rewrite IH.
Qed.

Lemma star_any_Some s rest :
  star_match any_char (match_re (Lit "}") Some) s = Some rest ->
  exists m, s = m +:+ "}" +:+ rest.
Proof.
  induction s as [|c s IH]; [done|].
  cbn [star_match any_char].
  destruct (star_match any_char (match_re (Lit "}") Some) s) as [r|] eqn:Hs.
  - intros [= ->]. destruct (IH eq_refl) as [m ->]. by exists (String c m).
  - cbn [match_re strip_prefix]. destruct (Ascii.eqb_spec "}" c) as [<-|]; [|done].
    intros [= ->]. by exists "".
Qed.

Lemma match_braces_found m q :
  no_char "}" q = true ->
  match_here re_braces ("{" +:+ m +:+ "}" +:+ q) = Some q.
Proof.
  intros Hq. unfold match_here, re_braces. cbn [match_re].
  rewrite strip_prefix_append. by apply star_any_close.
Qed.

Lemma match_braces_Some s rest :
  match_here re_braces s = Some rest -> exists m, s = "{" +:+ m +:+ "}" +:+ rest.
Proof.
  unfold match_here, re_braces. cbn [match_re].
  destruct (strip_prefix "{" s) as [s'|] eqn:Hs; [|done].
  apply strip_prefix_Some in Hs as ->.
  intros [m ->]%star_any_Some. by exists m.
Qed.

Lemma match_braces_other c s :
  Ascii.eqb c "{" = false -> match_here re_braces (String c s) = None.
Proof.
  intros Hc. unfold match_here, re_braces. cbn [match_re strip_prefix].
  rewrite Ascii.eqb_sym. by rewrite Hc.
Qed.

Lemma search_braces_found p m q :
  no_char "{" p = true -> no_char "}" q = true ->
  re_search re_braces (p +:+ "{" +:+ m +:+ "}" +:+ q) = Some ("{" +:+ m +:+ "}").
Proof.
  intros Hp Hq. induction p as [|c p IH].
  - change ("" +:+ "{" +:+ m +:+ "}" +:+ q) with ("{" +:+ m +:+ "}" +:+ q).
    rewrite (re_search_here _ _ q (match_braces_found m q Hq)). f_equal.
    replace ("{" +:+ m +:+ "}" +:+ q) with (("{" +:+ m +:+ "}") +:+ q)
      by (by rewrite !append_assoc).
    rewrite length_append.
    replace (String.length ("{" +:+ m +:+ "}") + String.length q - String.length q)
      with (String.length ("{" +:+ m +:+ "}")) by lia.
    apply substring_append_l.
  - unfold no_char in Hp. cbn [all_chars] in Hp.
    apply andb_true_iff in Hp as [Hc Hp]. apply negb_true_iff in Hc.
    change (String c p +:+ "{" +:+ m +:+ "}" +:+ q)
      with (String c (p +:+ "{" +:+ m +:+ "}" +:+ q)).
    rewrite (re_search_later _ _ _ (match_braces_other _ _ Hc)). by apply IH.
Qed.

Lemma search_braces_absent s :
  (forall p m q, s <> p +:+ "{" +:+ m +:+ "}" +:+ q) ->
  re_search re_braces s = None.
Proof.
  induction s as [|c s IH]; intros Hs.
  - done.
  - destruct (match_here re_braces (String c s)) as [rest|] eqn:Hm.
    + apply match_braces_Some in Hm as [m Hm]. by destruct (Hs "" m rest).
    + rewrite (re_search_later _ _ _ Hm).
      apply IH. intros p m q ->. by apply (Hs (String c p) m q).
Qed.

Lemma no_char_append_char c s t : no_char c (s +:+ String c t) = false.
Proof.
  unfold no_char. rewrite all_chars_append. cbn [all_chars].
  rewrite Ascii.eqb_refl. cbn. apply andb_false_r.
Qed.

Lemma last_close_dec t :
  (exists m q, t = m +:+ "}" +:+ q /\ no_char "}" q = true) \/ no_char "}" t = true.
Proof.
  induction t as [|c t [(m & q & -> & Hq)|IH]].
  - by right.
  - left. by exists (String c m), q.
  - destruct (Ascii.eqb_spec c "}") as [->|Hc].
    + left. by exists "", t.
    + right. unfold no_char in *. cbn [all_chars]. rewrite IH.
      apply Ascii.eqb_neq in Hc. by rewrite Hc.
Qed.

(** A text either has a first opening brace with a closing brace after it,
    or it has no such pair. *)
Lemma brace_pair_dec s :
  (exists p m q, s = p +:+ "{" +:+ m +:+ "}" +:+ q /\
     no_char "{" p = true /\ no_char "}" q = true) \/
  (forall p m q, s <> p +:+ "{" +:+ m +:+ "}" +:+ q).
Proof.
  induction s as [|c s IH].
  - right. by intros [|? ?] m q.
  - destruct (Ascii.eqb_spec c "{") as [->|Hc].
    + destruct (last_close_dec s) as [(m & q & -> & Hq)|Hs].
      * left. by exists "", m, q.
      * right. intros p m q Heq.
        assert (exists x, s = x +:+ String "}" q) as [x ->].
        { destruct p as [|c' p].
          - injection Heq as ->. by exists m.
          - injection Heq as _ ->. exists (p +:+ "{" +:+ m).
            by rewrite !append_assoc. }
        by rewrite no_char_append_char in Hs.
    + destruct IH as [(p & m & q & -> & Hp & Hq)|IH].
      * left. exists (String c p), m, q. split; [done|]. split; [|done].
        unfold no_char in *. cbn [all_chars]. rewrite Hp.
        apply Ascii.eqb_neq in Hc. by rewrite Hc.
      * right. intros [|c' p] m q Heq.
        -- injection Heq as -> _. done.
        -- injection Heq as _ ->. by apply (IH p m q).
Qed.

Lemma search_braces_spec s :
  brace_span_or_trimmed s
    (match re_search re_braces s with
     | Some json_match => json_match
     | None => strip s
     end).
Proof.
  destruct (brace_pair_dec s) as [(p & m & q & -> & Hp & Hq)|Hs].
  - left. exists p, m, q. by rewrite search_braces_found.
  - right. by rewrite search_braces_absent.
Qed.

(** White space holds neither a backquote nor a brace. *)
Lemma all_space_no_char c ws :
  is_space c = false -> all_space ws = true -> no_char c ws = true.
Proof.
  intros Hc. unfold all_space, no_char. induction ws as [|a ws IH]; [done|].
  cbn [all_chars]. intros [Ha Hws]%andb_true_iff. rewrite (IH Hws), andb_true_r.
  apply negb_true_iff, Ascii.eqb_neq. intros ->. congruence.
Qed.

Lemma starts_with_space c l ws :
  is_space c = false -> all_space ws = true -> starts_with (String c l) ws = false.
Proof.
  intros Hc. unfold starts_with, all_space. destruct ws as [|a ws]; [done|].
  cbn [all_chars strip_prefix]. intros [Ha _]%andb_true_iff.
  destruct (Ascii.eqb_spec c a) as [->|]; [congruence|done].
Qed.

Lemma str_contains_space c l ws :
  is_space c = false -> all_space ws = true -> str_contains (String c l) ws = false.
Proof.
  intros Hc Hws. induction ws as [|a ws IH].
  - done.
  - cbn [str_contains]. rewrite (starts_with_space c l _ Hc Hws).
    unfold all_space in Hws. cbn [all_chars] in Hws.
    apply andb_true_iff in Hws as [_ Hws]. by apply IH.
Qed.

(** A pattern without closing brace that starts in [y] and runs over the
    brace after [y] does not match. *)
Lemma starts_with_over_brace l y t :
  no_char "}" l = true ->
  starts_with l (y +:+ "}" +:+ t) = starts_with l (y +:+ "}").
Proof.
  unfold starts_with, no_char. revert y. induction l as [|a l IH]; intros y Hl; [done|].
  cbn [all_chars] in Hl. apply andb_true_iff in Hl as [Ha Hl].
  apply negb_true_iff in Ha.
  destruct y as [|b y].
  - cbn. by rewrite Ha.
  - change (String b y +:+ "}" +:+ t) with (String b (y +:+ "}" +:+ t)).
    change (String b y +:+ "}") with (String b (y +:+ "}")).
    cbn [strip_prefix]. destruct (Ascii.eqb a b); [by apply IH|done].
Qed.

Lemma str_contains_over_brace l y t :
  no_char "}" l = true -> l <> "" ->
  str_contains l (y +:+ "}") = false -> str_contains l t = false ->
  str_contains l (y +:+ "}" +:+ t) = false.
Proof.
  intros Hl Hne. induction y as [|b y IH]; intros Hy Ht.
  - change ("" +:+ "}" +:+ t) with (String "}" t). cbn [str_contains].
    rewrite Ht, orb_false_r.
    destruct l as [|a l]; [done|]. unfold no_char in Hl. cbn [all_chars] in Hl.
    apply andb_true_iff in Hl as [Ha _]. apply negb_true_iff in Ha.
    unfold starts_with. cbn [strip_prefix]. by rewrite Ha.
  - change (String b y +:+ "}" +:+ t) with (String b (y +:+ "}" +:+ t)).
    change (String b y +:+ "}") with (String b (y +:+ "}")) in Hy.
    cbn [str_contains] in *. apply orb_false_iff in Hy as [Hy1 Hy2].
    rewrite (IH Hy2 Ht), orb_false_r.
    change (String b (y +:+ "}" +:+ t)) with (String b y +:+ "}" +:+ t).
    by rewrite starts_with_over_brace.
Qed.

Lemma sub_json_fence_absent s :
  str_contains "```json" s = false -> re_sub re_json_fence "" s = s.
Proof.
  induction s as [|c s IH]; [done|].
  cbn [str_contains]. intros [Hc Hs]%orb_false_iff.
  rewrite sub_json_fence_no_match by done. by rewrite IH.
Qed.

Lemma starts_with_cons a l s :
  starts_with (String a l) (String a s) = starts_with l s.
Proof. unfold starts_with. cbn [strip_prefix]. by rewrite Ascii.eqb_refl. Qed.

(** The closing fence with the white space around it holds no opener. *)
Lemma closing_fence_no_opener ws2 ws3 :
  all_space ws2 = true -> all_space ws3 = true ->
  str_contains "```json" (ws2 +:+ "```" +:+ ws3) = false.
Proof.
  intros H2 H3. induction ws2 as [|a ws2 IH].
  - change ("" +:+ "```" +:+ ws3) with (String "`" (String "`" (String "`" ws3))).
    cbn [str_contains]. rewrite (str_contains_space "`" "``json" ws3) by done.
    rewrite !starts_with_cons.
    rewrite (starts_with_space "j" "son" ws3) by done.
    rewrite (starts_with_space "`" "json" ws3) by done.
    by rewrite (starts_with_space "`" "`json" ws3) by done.
  - change (String a ws2 +:+ "```" +:+ ws3) with (String a (ws2 +:+ "```" +:+ ws3)).
    unfold all_space in H2. cbn [all_chars] in H2.
    apply andb_true_iff in H2 as [Ha H2].
    cbn [str_contains]. rewrite (IH H2), orb_false_r.
    unfold starts_with. cbn [strip_prefix].
    destruct (Ascii.eqb_spec "`" a) as [<-|]; [by vm_compute in Ha|done].
Qed.

(** A [{...}] object inside a [```json] fence comes out as it went in,
    provided the opener does not occur inside it. *)
Lemma clean_json_response_fenced ws1 inner ws2 ws3 :
  all_space ws1 = true -> all_space ws2 = true -> all_space ws3 = true ->
  str_contains "```json" ("{" +:+ inner +:+ "}") = false ->
  clean_json_response
    ("```json" +:+ ws1 +:+ ("{" +:+ inner +:+ "}") +:+ ws2 +:+ "```" +:+ ws3)
  = "{" +:+ inner +:+ "}".
Proof.
  intros H1 H2 H3 Hbody. unfold clean_json_response.
  assert (re_sub re_json_fence ""
            ("```json" +:+ ws1 +:+ ("{" +:+ inner +:+ "}") +:+ ws2 +:+ "```" +:+ ws3)
          = ("{" +:+ inner +:+ "}") +:+ ws2 +:+ "```" +:+ ws3) as ->.
  { rewrite (sub_json_fence_match _ _ (strip_prefix_append _ _)).
    rewrite (lstrip_space_append _ _ H1).
    change (lstrip (("{" +:+ inner +:+ "}") +:+ ws2 +:+ "```" +:+ ws3))
      with (("{" +:+ inner +:+ "}") +:+ ws2 +:+ "```" +:+ ws3).
    apply sub_json_fence_absent.
    replace (("{" +:+ inner +:+ "}") +:+ ws2 +:+ "```" +:+ ws3)
      with (("{" +:+ inner) +:+ "}" +:+ (ws2 +:+ "```" +:+ ws3))
      by (by rewrite !append_assoc).
    apply str_contains_over_brace; [done|done| |by apply closing_fence_no_opener].
    by rewrite append_assoc. }
  rewrite <- (append_assoc _ ws2).
  rewrite (sub_closing_fence_found _ _ H3).
  change (("{" +:+ inner +:+ "}") +:+ ws2) with ("" +:+ "{" +:+ (inner +:+ "}") +:+ ws2).
  rewrite (append_assoc inner "}" ws2).
  rewrite search_braces_found; [done|done|].
  by apply all_space_no_char.
Qed.

Lemma openers_removed_fun s r :
  openers_removed s r -> r = re_sub re_json_fence "" s.
Proof.
  induction 1 as [|ws s r Hws Hs _ IH|c s r Hc _ IH].
  - done.
  - rewrite (sub_json_fence_match _ _ (strip_prefix_append _ _)).
    by rewrite (lstrip_space_append _ _ Hws), Hs.
  - rewrite (sub_json_fence_no_match _ _ Hc). by rewrite IH.
Qed.

Lemma closer_removed_fun s r :
  closer_removed s r -> r = re_sub re_closing_fence "" s.
Proof.
  intros [(ws & -> & Hws)|[-> Hno]].
  - by rewrite sub_closing_fence_found.
  - by rewrite sub_closing_fence_absent.
Qed.

Lemma brace_span_or_trimmed_fun s out :
  brace_span_or_trimmed s out ->
  out = match re_search re_braces s with
        | Some json_match => json_match
        | None => strip s
        end.
Proof.
  intros [(p & m & q & -> & Hp & Hq & ->)|[Hno ->]].
  - by rewrite search_braces_found.
  - by rewrite search_braces_absent.
Qed.

(** C4, as amended.  [clean_json_response] removes every occurrence of the
    [```json] opener with the white space after it, wherever it stands;
    removes a closing fence that ends the text, up to white space; and
    returns the span from the first opening brace to the last closing
    brace of what remains, or, when there is no such pair, what remains
    without the white space around it.  On a [{...}] object wrapped in a
    [```json] fence it returns the object, provided the opener does not
    occur inside the object. *)
Theorem clean_json_response_algorithm :
  (forall s out,
     clean_json_response s = out <->
     exists r1 r2,
       openers_removed s r1 /\ closer_removed r1 r2 /\
       brace_span_or_trimmed r2 out) /\
  (forall ws1 inner ws2 ws3,
     all_space ws1 = true -> all_space ws2 = true -> all_space ws3 = true ->
     str_contains "```json" ("{" +:+ inner +:+ "}") = false ->
     clean_json_response
       ("```json" +:+ ws1 +:+ ("{" +:+ inner +:+ "}") +:+ ws2 +:+ "```" +:+ ws3)
     = "{" +:+ inner +:+ "}").
Proof.
  split; [|apply clean_json_response_fenced].
  intros s out. split.
  - intros <-. eexists _, _. split; [apply sub_json_fence_spec|].
    split; [apply sub_closing_fence_spec|]. apply search_braces_spec.
  - intros (r1 & r2 & H1 & H2 & H3).
    apply openers_removed_fun in H1 as ->.
    apply closer_removed_fun in H2 as ->.
    by apply brace_span_or_trimmed_fun in H3 as ->.
Qed.

(** C4 as stated fails.  On a fenced text without braces the code returns
    the trimmed text that is left after the fences are removed, not the
    trimmed original text. *)
Lemma clean_json_response_not_as_specified :
  clean_json_response ("```json" +:+ newline +:+ "hello") = "hello" /\
  clean_json_response_as_specified ("```json" +:+ newline +:+ "hello")
    = "```json" +:+ newline +:+ "hello" /\
  clean_json_response ("```json" +:+ newline +:+ "hello")
    <> clean_json_response_as_specified ("```json" +:+ newline +:+ "hello").
Proof. by vm_compute. Qed.

(** An opener that is not leading is removed as well. *)
Example clean_json_response_inner_opener :
  clean_json_response "{a ```json b}" = "{a b}" /\
  clean_json_response_as_specified "{a ```json b}" = "{a ```json b}".
Proof. by vm_compute. Qed.

End CleanFacts.

(* ===================================================================== *)
(** * Properties of [generate_plan]                                        *)
(* ===================================================================== *)

Section PlannerFacts.

Context (lib : library) (env : environment) (model : string).

Lemma generate_plan_body_total project_brief :
  generate_plan_body lib env model project_brief <> OutOfFuel.
Proof.
  unfold generate_plan_body.
  destruct (chat_completions_create env _) as [e|response]; simpl; [done|].
  destruct response as [|content response]; simpl; [done|].
  destruct content as [text|]; simpl; [|done].
  destruct (json_loads env _) as [e|plan_data]; simpl; [done|].
  pose proof (validate_json_structure_result_total plan_data) as Hv.
  destruct (validate_json_structure_result plan_data) as [d'|e|]; simpl; [|done|done].
  destruct d' as [ | b | z | f | s | l | m]; simpl; try done.
  by destruct (Plan.new lib m).
Qed.

(** C1.  For every brief, [generate_plan] returns a pair of which exactly
    one component is not [None]: the plan and no message when the body of
    the [try] block comes to its end, and no plan and a message when any
    step of it raises.  No exception leaves the call. *)
Theorem generate_plan_returns_exactly_one project_brief :
  exists r,
    generate_plan lib env model project_brief = Some r /\
    exactly_one_non_null r /\
    (forall plan, generate_plan_body lib env model project_brief = Ok plan ->
       r = (Some plan, None)) /\
    (forall e, generate_plan_body lib env model project_brief = Err e ->
       exists msg, r = (None, Some msg)).
Proof.
  unfold generate_plan.
  pose proof (generate_plan_body_total project_brief) as Htotal.
  destruct (generate_plan_body lib env model project_brief) as [plan|e|]; [| |done].
  - eexists. split; [reflexivity|]. split; [left; by eexists|].
    split; [by intros ? [= ->]|done].
  - destruct (exn_is_json_decode_error e); eexists;
      (split; [reflexivity|]); (split; [right; by eexists|]);
      (split; [done|]); intros ? _; by eexists.
Qed.

End PlannerFacts.

Section FailureMapping.

Context (lib : library) (env : environment) (model : string).

Lemma append_char_inj c (a b x y : string) :
  no_char c a = true -> no_char c b = true ->
  a +:+ String c x = b +:+ String c y -> a = b.
Proof.
  unfold no_char. revert b. induction a as [|a0 a IH]; intros [|b0 b]; simpl.
  - done.
  - intros _ [Hb _]%andb_true_iff [= <- _]. by rewrite Ascii.eqb_refl in Hb.
  - intros [Ha _]%andb_true_iff _ [= -> _]. by rewrite Ascii.eqb_refl in Ha.
  - intros [_ Ha]%andb_true_iff [_ Hb]%andb_true_iff [= -> Heq].
    f_equal. by apply IH.
Qed.

Lemma format_error_message_name e1 e2 :
  no_char ")" (exn_name e1) = true -> no_char ")" (exn_name e2) = true ->
  format_error_message e1 = format_error_message e2 ->
  exn_name e1 = exn_name e2.
Proof.
  intros H1 H2. unfold format_error_message. intros [= Heq].
  by apply (append_char_inj ")" _ _ _ _ H1 H2 Heq).
Qed.

Lemma generate_plan_provider_error project_brief e :
  chat_completions_create env (chat_request_for model (_create_prompt project_brief))
    = inl e ->
  generate_plan lib env model project_brief =
    Some (None, Some (if exn_is_json_decode_error e
                      then "Invalid JSON response from AI: " +:+ exn_str e
                      else format_error_message e)).
Proof.
  intros Hc. unfold generate_plan, generate_plan_body. rewrite Hc. simpl.
  by destruct (exn_is_json_decode_error e).
Qed.

Lemma generate_plan_json_error project_brief text rest e :
  chat_completions_create env (chat_request_for model (_create_prompt project_brief))
    = inr (Some text :: rest) ->
  json_loads env (clean_json_response text) = inl e ->
  exn_is_json_decode_error e = true ->
  generate_plan lib env model project_brief =
    Some (None, Some ("Invalid JSON response from AI: " +:+ exn_str e)).
Proof.
  intros Hc Hj He. unfold generate_plan, generate_plan_body.
  rewrite Hc. simpl. rewrite Hj. simpl. by rewrite He.
Qed.

Lemma generate_plan_schema_error project_brief text rest d m errors :
  chat_completions_create env (chat_request_for model (_create_prompt project_brief))
    = inr (Some text :: rest) ->
  json_loads env (clean_json_response text) = inr d ->
  validate_json_structure_result d = Ok (VDict m) ->
  Plan.validate lib m = Invalid errors ->
  generate_plan lib env model project_brief =
    Some (None, Some (format_error_message
                        (ValidationError (error_message lib "Plan" errors)))).
Proof.
  intros Hc Hj Hv Hp. unfold generate_plan, generate_plan_body.
  rewrite Hc. simpl. rewrite Hj. simpl. rewrite Hv. simpl.
  unfold Plan.new. by rewrite Hp.
Qed.

End FailureMapping.

(** C9, as amended.  The failure mapping goes by the class of the exception,
    not by the step that raised it.  A [JSONDecodeError] of [json.loads] is
    reported as [Invalid JSON response from AI: ] followed by the message of
    the parser, and so is a [JSONDecodeError] with that message raised by
    the provider call.  A failed construction of the [Plan] is reported by
    the handler that also reports provider errors, as
    [Error (ValidationError): ] followed by the message of the validation
    error.  That report differs from every report of invalid JSON; it is
    the report of a provider error, whose class name has no closing
    parenthesis, exactly when that error is no [JSONDecodeError], its class
    is named [ValidationError] and it carries the same message. *)
Theorem generate_plan_failure_mapping lib env model project_brief text rest :
  chat_completions_create env (chat_request_for model (_create_prompt project_brief))
    = inr (Some text :: rest) ->
  (forall e,
     json_loads env (clean_json_response text) = inl e ->
     exn_is_json_decode_error e = true ->
     generate_plan lib env model project_brief =
       Some (None, Some ("Invalid JSON response from AI: " +:+ exn_str e)) /\
     (forall env' e',
        chat_completions_create env'
          (chat_request_for model (_create_prompt project_brief)) = inl e' ->
        exn_is_json_decode_error e' = true ->
        exn_str e' = exn_str e ->
        generate_plan lib env' model project_brief
        = generate_plan lib env model project_brief)) /\
  (forall d m errors,
     json_loads env (clean_json_response text) = inr d ->
     validate_json_structure_result d = Ok (VDict m) ->
     Plan.validate lib m = Invalid errors ->
     generate_plan lib env model project_brief =
       Some (None, Some ("Error (ValidationError): "
                         +:+ error_message lib "Plan" errors)) /\
     (forall x, "Invalid JSON response from AI: " +:+ x
                <> "Error (ValidationError): " +:+ error_message lib "Plan" errors) /\
     (forall env' e,
        chat_completions_create env'
          (chat_request_for model (_create_prompt project_brief)) = inl e ->
        no_char ")" (exn_name e) = true ->
        (generate_plan lib env' model project_brief
         = generate_plan lib env model project_brief
         <-> exn_is_json_decode_error e = false /\
             exn_name e = "ValidationError" /\
             exn_str e = error_message lib "Plan" errors))).
Proof.
  intros Hc. split.
  - intros e Hj He.
    pose proof (generate_plan_json_error lib _ _ _ _ _ _ Hc Hj He) as Hs.
    split; [exact Hs|].
    intros env' e' Hc' He' Hstr.
    by rewrite Hs, (generate_plan_provider_error _ _ _ _ _ Hc'), He', Hstr.
  - intros d m errors Hj Hv Hp.
    pose proof (generate_plan_schema_error _ _ _ _ _ _ _ _ _ Hc Hj Hv Hp) as Hs.
    split; [exact Hs|]. split; [done|].
    intros env' e Hc' Hname.
    rewrite Hs, (generate_plan_provider_error _ _ _ _ _ Hc').
    destruct (exn_is_json_decode_error e).
    + split; [done|]. by intros [? _].
    + split.
      * intros Heq.
        assert (format_error_message e
                = format_error_message
                    (ValidationError (error_message lib "Plan" errors))) as Hf
          by congruence.
        pose proof (format_error_message_name e
                      (ValidationError (error_message lib "Plan" errors))
                      Hname eq_refl Hf) as Hn.
        split; [done|]. split; [exact Hn|].
        unfold format_error_message in Hf. rewrite Hn in Hf.
        apply (inj (String.app _)) in Hf. apply (inj (String.app _)) in Hf.
        by apply (inj (String.app _)) in Hf.
      * intros (_ & Hn & Hstr). unfold format_error_message.
        by rewrite Hn, Hstr.
Qed.

(** C9 as stated fails, whatever the library.  A provider error of a class
    named [ValidationError] that carries the message of the validation
    error and a failed construction of the [Plan] give the same pair, and a
    [JSONDecodeError] raised by the provider call is reported as invalid
    JSON from the model. *)
Lemma generate_plan_kinds_not_distinct :
  (forall lib,
     generate_plan lib no_plan_provider default_model "brief"
     = Some (None, Some ("Error (ValidationError): "
                         +:+ error_message lib "Plan" no_plan_errors)) /\
     generate_plan lib
       (failing_provider
          (MkExn "ValidationError" false (error_message lib "Plan" no_plan_errors)))
       default_model "brief"
     = generate_plan lib no_plan_provider default_model "brief") /\
  (forall lib,
     generate_plan lib (failing_provider expecting_value) default_model "brief"
     = generate_plan lib invalid_json_provider default_model "brief" /\
     generate_plan lib invalid_json_provider default_model "brief"
     = Some (None, Some "Invalid JSON response from AI: Expecting value: line 1 column 1 (char 0)")).
Proof.
  split; intros lib; split; by vm_compute.
Qed.

Lemma generate_plan_failure_mapping_witness :
  (chat_completions_create invalid_json_provider
     (chat_request_for default_model (_create_prompt "brief"))
     = inr (Some "Sorry, I cannot help." :: []) /\
   json_loads invalid_json_provider (clean_json_response "Sorry, I cannot help.")
     = inl expecting_value /\
   exn_is_json_decode_error expecting_value = true /\
   generate_plan strict_library invalid_json_provider default_model "brief"
     = Some (None, Some ("Invalid JSON response from AI: " +:+ exn_str expecting_value)) /\
   chat_completions_create (failing_provider expecting_value)
     (chat_request_for default_model (_create_prompt "brief")) = inl expecting_value /\
   generate_plan strict_library (failing_provider expecting_value) default_model "brief"
     = generate_plan strict_library invalid_json_provider default_model "brief") /\
  (chat_completions_create no_plan_provider
     (chat_request_for default_model (_create_prompt "brief"))
     = inr (Some no_plan_text :: []) /\
   json_loads no_plan_provider (clean_json_response no_plan_text)
     = inr (VDict {[ "project_name" := VInt 5 ]}) /\
   validate_json_structure_result (VDict {[ "project_name" := VInt 5 ]})
     = Ok (VDict (<["project_name" := VInt 5]> repaired_defaults)) /\
   Plan.validate strict_library (<["project_name" := VInt 5]> repaired_defaults)
     = Invalid no_plan_errors /\
   generate_plan strict_library no_plan_provider default_model "brief"
     = Some (None, Some ("Error (ValidationError): "
                         +:+ error_message strict_library "Plan" no_plan_errors)) /\
   chat_completions_create (failing_provider rate_limit_error)
     (chat_request_for default_model (_create_prompt "brief")) = inl rate_limit_error /\
   no_char ")" (exn_name rate_limit_error) = true /\
   (generate_plan strict_library (failing_provider rate_limit_error) default_model "brief"
    = generate_plan strict_library no_plan_provider default_model "brief"
    <-> exn_is_json_decode_error rate_limit_error = false /\
        exn_name rate_limit_error = "ValidationError" /\
        exn_str rate_limit_error = error_message strict_library "Plan" no_plan_errors)).
Proof.
  assert (validate_json_structure_result (VDict {[ "project_name" := VInt 5 ]})
          = Ok (VDict (<["project_name" := VInt 5]> repaired_defaults))) as Hv
    by (vm_compute; reflexivity).
  assert (Plan.validate strict_library (<["project_name" := VInt 5]> repaired_defaults)
          = Invalid no_plan_errors) as Hp
    by (vm_compute; reflexivity).
  split.
  - pose proof (proj1 (generate_plan_failure_mapping strict_library
                         invalid_json_provider default_model "brief"
                         "Sorry, I cannot help." [] eq_refl)
                  expecting_value eq_refl eq_refl) as [H1 H2].
    split; [reflexivity|]. split; [reflexivity|]. split; [reflexivity|].
    split; [exact H1|]. split; [reflexivity|].
    exact (H2 (failing_provider expecting_value) expecting_value
              eq_refl eq_refl eq_refl).
  - pose proof (proj2 (generate_plan_failure_mapping strict_library
                         no_plan_provider default_model "brief"
                         no_plan_text [] eq_refl)
                  (VDict {[ "project_name" := VInt 5 ]})
                  (<["project_name" := VInt 5]> repaired_defaults)
                  no_plan_errors eq_refl Hv Hp) as (H1 & _ & H3).
    split; [reflexivity|]. split; [reflexivity|]. split; [exact Hv|].
    split; [exact Hp|]. split; [exact H1|]. split; [reflexivity|].
    split; [reflexivity|].
    exact (H3 (failing_provider rate_limit_error) rate_limit_error
              eq_refl eq_refl).
Defined.

(* ===================================================================== *)
(** * Properties of the construction of a [Plan] *)
(* ===================================================================== *)

Section ModelFacts.

Context (lib : library).

Lemma list_items_dump {A : Type} (item : value -> validated A) (dump : A -> value)
    (l : list A) (i : nat) :
  (forall x, item (dump x) = Valid x) ->
  list_items item i (dump <$> l) = Valid l.
Proof.
  intros Hitem. revert i. induction l as [|x l IH]; intros i; [done|].
  cbn [fmap list_fmap list_items]. by rewrite Hitem, IH.
Qed.

Lemma list_type_dump {A : Type} (item : value -> validated A) (dump : A -> value)
    (l : list A) :
  (forall x, item (dump x) = Valid x) ->
  list_type item (VList (dump <$> l)) = Valid l.
Proof. intros Hitem. by apply list_items_dump. Qed.

Lemma risk_validate_dump r : model_type Risk.validate (risk_dump r) = Valid r.
Proof. by destruct r. Qed.

Lemma str_list_dump (l : list string) :
  list_type str_type (VList (VStr <$> l)) = Valid l.
Proof. by apply list_type_dump. Qed.

Ltac lookup_dump :=
  unfold required, with_default;
  repeat (rewrite lookup_insert_eq || rewrite lookup_insert_ne by done).

Lemma task_validate_dump t : model_type (Task.validate lib) (task_dump t) = Valid t.
Proof.
  destruct t as [n d h deps par]. unfold task_dump, model_type, Task.validate.
  lookup_dump. cbn [Task.name Task.description Task.estimated_hours
    Task.dependencies Task.can_parallel].
  by rewrite str_list_dump.
Qed.

Lemma milestone_validate_dump m :
  model_type (Milestone.validate lib) (milestone_dump m) = Valid m.
Proof.
  destruct m as [n d w dl ts sc].
  unfold milestone_dump, model_type, Milestone.validate.
  lookup_dump. cbn [Milestone.name Milestone.description Milestone.week_number
    Milestone.deliverables Milestone.tasks Milestone.success_criteria].
  rewrite !str_list_dump.
  by rewrite (list_type_dump _ task_dump ts task_validate_dump).
Qed.

Lemma plan_validate_dump p : Plan.validate lib (plan_dump p) = Valid p.
Proof.
  destruct p as [n s w ms rs mc po].
  unfold plan_dump, Plan.validate.
  lookup_dump. cbn [Plan.project_name Plan.project_summary Plan.total_weeks
    Plan.milestones Plan.risks Plan.monitoring_checkpoints
    Plan.parallel_opportunities].
  rewrite !str_list_dump.
  rewrite (list_type_dump _ milestone_dump ms milestone_validate_dump).
  by rewrite (list_type_dump _ risk_dump rs risk_validate_dump).
Qed.

(** C6, as amended.  Construction checks the declared types of the fields
    and nothing else: every plan, whatever its strings, integers and
    sequences are, is constructed from its own field-for-field data.  The
    levels, signs and non-emptiness of section 3 are not enforced. *)
Theorem plan_construction_checks_types_only (p : Plan.t) :
  Plan.new lib (plan_dump p) = inr p.
Proof. unfold Plan.new. by rewrite plan_validate_dump. Qed.

End ModelFacts.

(** C6 as stated fails: a plan is constructed whose risk levels are not
    among the three, whose task has negative hours, whose milestone has
    week number 0 and no deliverable, and whose duration is negative. *)
Lemma plan_construction_breaks_invariants :
  (forall lib, Plan.new lib (plan_dump odd_plan) = inr odd_plan) /\
  ~ plan_invariant odd_plan /\
  ~ risk_invariant odd_risk /\
  ~ task_invariant odd_task /\
  ~ milestone_invariant odd_milestone.
Proof.
  split; [intros lib; unfold Plan.new; by rewrite plan_validate_dump|].
  unfold plan_invariant, risk_invariant, task_invariant, milestone_invariant,
    is_level; simpl.
  repeat split; intros H; [destruct H as [H _]; lia| |lia|destruct H as [H _]; lia].
  destruct H as [[H|[H|H]] _]; discriminate H.
Qed.

(* ===================================================================== *)
(** * Properties of [Plan.to_markdown] *)
(* ===================================================================== *)

Section MarkdownFacts.

Implicit Types (md s : string).

Lemma concat_strings_cons s (l : list string) :
  concat_strings (s :: l) = s +:+ concat_strings l.
Proof.
  unfold concat_strings. destruct l as [|s' l]; simpl; [by rewrite append_nil_r|done].
Qed.

(** A loop that only appends writes the blocks of its items in order. *)
Lemma fold_left_append {A : Type} (f : string -> A -> string) (xs : list A) md :
  (forall md x, f md x = md +:+ f "" x) ->
  fold_left f xs md = md +:+ concat_strings (f "" <$> xs).
Proof.
  intros Hf. revert md. induction xs as [|x xs IH]; intros md.
  - simpl. by rewrite append_nil_r.
  - cbn [fold_left fmap list_fmap]. rewrite IH, concat_strings_cons, Hf.
    by rewrite append_assoc.
Qed.

Lemma add_bullets_append (xs : list string) md :
  Plan.add_bullets xs md = md +:+ Plan.add_bullets xs "".
Proof.
  unfold Plan.add_bullets.
  rewrite (fold_left_append _ xs md), (fold_left_append _ xs "") by done.
  done.
Qed.

Lemma add_task_append md t : Plan.add_task md t = md +:+ task_block t.
Proof.
  unfold task_block, Plan.add_task. cbv zeta.
  destruct (Task.dependencies t); by rewrite !append_nil_l, !append_assoc.
Qed.

Lemma task_block_line t :
  task_block t =
    Plan.task_line t +:+ "  " +:+ Task.description t +:+ newline
      +:+ match Task.dependencies t with
          | [] => ""
          | _ :: _ =>
              "  Dependencies: " +:+ String.concat ", " (Task.dependencies t)
                +:+ newline
          end.
Proof.
  unfold task_block, Plan.add_task. cbv zeta.
  destruct (Task.dependencies t);
    by rewrite !append_nil_l, ?append_assoc, ?append_nil_r.
Qed.

Lemma add_tasks_append (ts : list Task.t) md :
  fold_left Plan.add_task ts md = md +:+ concat_strings (task_block <$> ts).
Proof. apply fold_left_append. intros. apply add_task_append. Qed.

Lemma add_milestone_append md m :
  Plan.add_milestone md m = md +:+ milestone_block m.
Proof.
  unfold milestone_block, Plan.add_milestone. cbv zeta.
  rewrite !add_tasks_append.
  rewrite (add_bullets_append (Milestone.success_criteria m)).
  rewrite (add_bullets_append (Milestone.success_criteria m) (_ +:+ _)).
  rewrite (add_bullets_append (Milestone.deliverables m)).
  rewrite (add_bullets_append (Milestone.deliverables m) (_ +:+ _)).
  by rewrite !append_nil_l, !append_assoc.
Qed.

Lemma milestone_block_shape m :
  milestone_block m =
    Plan.milestone_heading m
      +:+ Milestone.description m +:+ newline +:+ newline
      +:+ "**Deliverables:**" +:+ newline
      +:+ Plan.add_bullets (Milestone.deliverables m) ""
      +:+ newline +:+ "**Tasks:**" +:+ newline
      +:+ concat_strings (task_block <$> Milestone.tasks m)
      +:+ newline +:+ "**Success Criteria:**" +:+ newline
      +:+ Plan.add_bullets (Milestone.success_criteria m) ""
      +:+ newline.
Proof.
  unfold milestone_block, Plan.add_milestone. cbv zeta.
  rewrite add_tasks_append.
  rewrite (add_bullets_append (Milestone.success_criteria m)).
  rewrite (add_bullets_append (Milestone.deliverables m)).
  by rewrite !append_nil_l, !append_assoc.
Qed.

Lemma add_milestones_append (ms : list Milestone.t) md :
  fold_left Plan.add_milestone ms md = md +:+ concat_strings (milestone_block <$> ms).
Proof. apply fold_left_append. intros. apply add_milestone_append. Qed.

Lemma add_risks_append (rs : list (Z * Risk.t)) md :
  fold_left Plan.add_risk rs md = md +:+ fold_left Plan.add_risk rs "".
Proof.
  rewrite (fold_left_append _ rs md), (fold_left_append _ rs "").
  - done.
  - intros md' [i r]. unfold Plan.add_risk.
    by rewrite !append_nil_l, !append_assoc.
  - intros md' [i r]. unfold Plan.add_risk.
    by rewrite !append_nil_l, !append_assoc.
Qed.

Lemma to_markdown_shape p :
  Plan.to_markdown p =
    "# " +:+ Plan.project_name p +:+ newline +:+ newline
      +:+ "**Project Summary:** " +:+ Plan.project_summary p +:+ newline +:+ newline
      +:+ "**Total Duration:** " +:+ Plan.str_of_int (Plan.total_weeks p)
      +:+ " weeks" +:+ newline +:+ newline
      +:+ "## Milestones" +:+ newline +:+ newline
      +:+ concat_strings (milestone_block <$> Plan.milestones p)
      +:+ "## Top 3 Risks" +:+ newline +:+ newline
      +:+ fold_left Plan.add_risk (Plan.enumerate (Plan.risks p) 1) ""
      +:+ "## Monitoring Checkpoints" +:+ newline +:+ newline
      +:+ Plan.add_bullets (Plan.monitoring_checkpoints p) ""
      +:+ newline +:+ "## Parallel Work Opportunities" +:+ newline +:+ newline
      +:+ Plan.add_bullets (Plan.parallel_opportunities p) "".
Proof.
  unfold Plan.to_markdown. cbv zeta.
  rewrite add_milestones_append.
  rewrite (add_bullets_append (Plan.parallel_opportunities p)).
  rewrite (add_bullets_append (Plan.monitoring_checkpoints p)).
  rewrite add_risks_append.
  by rewrite !append_assoc.
Qed.

Lemma append_inj_suffix (a b s1 s2 : string) :
  String.length s1 = String.length s2 ->
  a +:+ s1 = b +:+ s2 -> a = b /\ s1 = s2.
Proof.
  intros Hlen Heq.
  assert (String.length a = String.length b) as Hab.
  { apply (f_equal String.length) in Heq. rewrite !length_append in Heq. lia. }
  clear Hlen. revert b Hab Heq.
  induction a as [|c a IH]; intros [|c' b]; simpl; try done.
  intros [= Hab] [= -> Heq]. destruct (IH b Hab Heq) as [-> ->]. done.
Qed.

Lemma task_line_parallel t :
  (exists x, Plan.task_line t = x +:+ " (Can be done in parallel)" +:+ newline)
  <-> Task.can_parallel t = true.
Proof.
  unfold Plan.task_line, Plan.parallel_note. split.
  - intros [x Hx]. destruct (Task.can_parallel t); [done|]. exfalso.
    assert (("- **" +:+ Task.name t +:+ "** ("
               +:+ Plan.str_of_int (Task.estimated_hours t)) +:+ ("h)" +:+ newline)
            = (x +:+ " (Can be done in paralle") +:+ ("l)" +:+ newline)) as Heq.
    { rewrite !append_assoc. exact Hx. }
    by destruct (append_inj_suffix _ _ ("h)" +:+ newline) ("l)" +:+ newline)
                   eq_refl Heq) as [_ ?].
  - intros ->. eexists. rewrite <- !append_assoc. reflexivity.
Qed.

(** C8.  [to_markdown] is a function of the plan: equal plans give equal
    texts.  The text has every section, also when a sequence is empty; its
    Milestones section is made of one block per milestone, in the order of
    the list, and each block starts with the H3 line of its milestone.  The
    blocks of the tasks of a milestone come in order inside its block, each
    starts with the line of its task, and that line ends with the parallel
    note exactly when the task is marked [can_parallel]. *)
Theorem to_markdown_headings_and_parallel_note :
  (forall p q, p = q -> Plan.to_markdown p = Plan.to_markdown q) /\
  (forall p,
     Plan.to_markdown p =
       "# " +:+ Plan.project_name p +:+ newline +:+ newline
         +:+ "**Project Summary:** " +:+ Plan.project_summary p
         +:+ newline +:+ newline
         +:+ "**Total Duration:** " +:+ Plan.str_of_int (Plan.total_weeks p)
         +:+ " weeks" +:+ newline +:+ newline
         +:+ "## Milestones" +:+ newline +:+ newline
         +:+ concat_strings (milestone_block <$> Plan.milestones p)
         +:+ "## Top 3 Risks" +:+ newline +:+ newline
         +:+ fold_left Plan.add_risk (Plan.enumerate (Plan.risks p) 1) ""
         +:+ "## Monitoring Checkpoints" +:+ newline +:+ newline
         +:+ Plan.add_bullets (Plan.monitoring_checkpoints p) ""
         +:+ newline +:+ "## Parallel Work Opportunities" +:+ newline +:+ newline
         +:+ Plan.add_bullets (Plan.parallel_opportunities p) "") /\
  (forall m,
     milestone_block m =
       "### " +:+ Milestone.name m +:+ " (Week "
         +:+ Plan.str_of_int (Milestone.week_number m) +:+ ")" +:+ newline
         +:+ Milestone.description m +:+ newline +:+ newline
         +:+ "**Deliverables:**" +:+ newline
         +:+ Plan.add_bullets (Milestone.deliverables m) ""
         +:+ newline +:+ "**Tasks:**" +:+ newline
         +:+ concat_strings (task_block <$> Milestone.tasks m)
         +:+ newline +:+ "**Success Criteria:**" +:+ newline
         +:+ Plan.add_bullets (Milestone.success_criteria m) ""
         +:+ newline) /\
  (forall t,
     task_block t =
       "- **" +:+ Task.name t +:+ "** ("
         +:+ Plan.str_of_int (Task.estimated_hours t) +:+ "h)"
         +:+ (if Task.can_parallel t then " (Can be done in parallel)" else "")
         +:+ newline
         +:+ "  " +:+ Task.description t +:+ newline
         +:+ match Task.dependencies t with
             | [] => ""
             | _ :: _ =>
                 "  Dependencies: " +:+ String.concat ", " (Task.dependencies t)
                   +:+ newline
             end) /\
  (forall t,
     (exists x, Plan.task_line t = x +:+ " (Can be done in parallel)" +:+ newline)
     <-> Task.can_parallel t = true).
Proof.
  split; [by intros p q ->|].
  split; [apply to_markdown_shape|].
  split.
  { intros m. rewrite milestone_block_shape. unfold Plan.milestone_heading.
    by rewrite !append_assoc. }
  split; [|apply task_line_parallel].
  intros t. rewrite task_block_line. unfold Plan.task_line, Plan.parallel_note.
  by rewrite !append_assoc.
Qed.

End MarkdownFacts.

(* ===================================================================== *)
(** * Further properties of [validate_json_structure] *)
(* ===================================================================== *)

Section MoreValidateFacts.

Implicit Types (m : gmap string value) (l : list value) (d : value).

Lemma all_present_absorbs_defaults m :
  Forall (fun k => is_Some (m !! k)) required_names -> m ∪ defaults = m.
Proof.
  intros Hall. apply map_eq. intros k. rewrite lookup_union.
  destruct (m !! k) as [x|] eqn:Hk; [by destruct (defaults !! k)|].
  destruct (decide (k ∈ required_names)) as [Hin|Hout].
  - rewrite Forall_forall in Hall. destruct (Hall k Hin) as [x Hx]. congruence.
  - by rewrite (defaults_lookup_other k Hout).
Qed.

(** X1.  A map that already has the seven fields and a risks list of
    exactly three entries is returned as it is: nothing is inserted,
    appended or cut. *)
Theorem validate_json_structure_well_formed_unchanged m l :
  Forall (fun k => is_Some (m !! k)) required_names ->
  m !! "risks" = Some (VList l) -> length l = 3 ->
  validate_json_structure (VDict m) = (VDict m, Ok (VDict m)).
Proof.
  intros Hall Hr Hl.
  assert ((m ∪ defaults) !! "risks" = Some (VList l)) as Hr'
    by (by rewrite all_present_absorbs_defaults).
  rewrite (validate_json_structure_dict m _ Hr'). simpl.
  rewrite all_present_absorbs_defaults by done.
  replace (3 - length l) with 0 by lia. simpl. rewrite app_nil_r.
  rewrite take_ge by lia. by rewrite insert_id.
Qed.

Lemma validate_json_structure_well_formed_unchanged_witness :
  Forall (fun k => is_Some (repaired_defaults !! k)) required_names /\
  repaired_defaults !! "risks"
    = Some (VList [generic_risk; generic_risk; generic_risk]) /\
  length [generic_risk; generic_risk; generic_risk] = 3 /\
  validate_json_structure (VDict repaired_defaults)
    = (VDict repaired_defaults, Ok (VDict repaired_defaults)).
Proof.
  assert (Forall (fun k => is_Some (repaired_defaults !! k)) required_names) as H
    by (repeat constructor; by eexists).
  split; [exact H|]. split; [reflexivity|]. split; [reflexivity|].
  apply (validate_json_structure_well_formed_unchanged repaired_defaults
           [generic_risk; generic_risk; generic_risk] H); reflexivity.
Defined.

(** X2.  Whether the call returns or raises, the keys of the map afterwards
    are the keys it had before together with the seven required names: no
    key is ever removed and no other key is added. *)
Theorem validate_json_structure_keys m :
  exists m',
    (validate_json_structure (VDict m)).1 = VDict m' /\
    dom m' = dom m ∪ list_to_set required_names.
Proof.
  assert (dom defaults = list_to_set (C := gset string) required_names) as Hd.
  { unfold defaults, required_names. by rewrite dom_list_to_map_L. }
  destruct (defaults_risks m) as [r Hr].
  rewrite (validate_json_structure_dict m r Hr).
  assert ("risks" ∈ (list_to_set required_names : gset string)) as Hin.
  { apply elem_of_list_to_set. apply risks_in_names. }
  revert Hd Hin. generalize (list_to_set required_names : gset string).
  intros S Hd Hin.
  destruct (risks_rule r) as [r'| e |]; cbv zeta; cbn [fst]; eexists;
    (split; [reflexivity|]).
  - rewrite dom_insert_L, dom_union_L, Hd. apply set_eq. intros x.
    rewrite !elem_of_union, elem_of_singleton.
    split; [intros [->|H]; [right; exact Hin|exact H]|intros H; by right].
  - by rewrite dom_union_L, Hd.
  - by rewrite dom_union_L, Hd.
Qed.

Lemma validate_json_structure_non_dict_TypeError d :
  (forall m, d <> VDict m) ->
  exists msg, validate_json_structure d = (d, Err (TypeError msg)).
Proof.
  intros Hd.
  assert (forall kv e, ensure_field kv d = (d, Err e) -> exists msg, e = TypeError msg)
    as Hfield.
  { intros [k v] e.
    unfold ensure_field, data_contains, data_setitem, bind, get_data, lift,
      set_data, ret.
    destruct d as [ | b | z | f | s | l | m]; simpl;
      try (intros [= <-]; by eexists).
    - destruct (str_contains k s); simpl; intros [= <-]; by eexists.
    - destruct (existsb (is_VStr k) l); simpl; intros [= <-]; by eexists.
    - by destruct (Hd m). }
  assert (forall fields e, for_each fields ensure_field d = (d, Err e) ->
            exists msg, e = TypeError msg) as Hloop.
  { induction fields as [|kv fields IH]; intros e; [done|].
    cbn [for_each]. unfold bind.
    destruct (ensure_field_not_dict d kv Hd) as [Hk | [e' Hk]]; rewrite Hk.
    - apply IH.
    - intros [= <-]. by apply (Hfield kv). }
  unfold validate_json_structure, validate_json_structure_fuel, ensure_required_fields.
  unfold bind at 1.
  destruct (for_each_not_dict d required_fields Hd) as [Hf | [e Hf]]; rewrite Hf.
  - unfold bind at 1. unfold normalize_risks, len_risks, data_getitem, bind,
      get_data, lift.
    destruct d as [ | b | z | f | s | l | m]; simpl; try (by eexists).
    by destruct (Hd m).
  - destruct (Hloop _ _ Hf) as [msg ->]. by exists msg.
Qed.

(** X3.  Called on parsed JSON that is not an object (null, a boolean, a
    number, a string or a list), the function raises [TypeError] and leaves
    its argument as it was. *)
Theorem validate_json_structure_rejects_non_dict d :
  (forall m, d <> VDict m) ->
  exists msg, validate_json_structure d = (d, Err (TypeError msg)).
Proof. apply validate_json_structure_non_dict_TypeError. Qed.

Lemma validate_json_structure_rejects_non_dict_witness :
  (forall m, VList [VInt 1] <> VDict m) /\
  exists msg,
    validate_json_structure (VList [VInt 1]) = (VList [VInt 1], Err (TypeError msg)).
Proof.
  assert (forall m, VList [VInt 1] <> VDict m) as H by (intros m; discriminate).
  split; [exact H|].
  apply (validate_json_structure_rejects_non_dict (VList [VInt 1]) H).
Defined.

End MoreValidateFacts.

(* ===================================================================== *)
(** * Further properties of [clean_json_response] *)
(* ===================================================================== *)

Section MoreCleanFacts.

Implicit Types (s t : string) (c : ascii).

Lemma rstrip_head c s :
  rstrip (String c s) = "" \/ exists t, rstrip (String c s) = String c t.
Proof.
  cbn [rstrip]. destruct (rstrip s) as [|a t].
  - destruct (is_space c); [by left|right; by eexists].
  - right. by eexists.
Qed.

Lemma rstrip_idem s : rstrip (rstrip s) = rstrip s.
Proof.
  induction s as [|c s IH]; [done|].
  cbn [rstrip]. destruct (rstrip s) as [|a t] eqn:Hs.
  - destruct (is_space c) eqn:Hc; [done|]. cbn [rstrip]. by rewrite Hc.
  - change (rstrip (String c (String a t))) with
      (match rstrip (String a t) with
       | "" => if is_space c then "" else String c ""
       | String a' t' => String c (String a' t')
       end).
    by rewrite IH.
Qed.

Lemma length_lstrip s : String.length (lstrip s) <= String.length s.
Proof.
  induction s as [|c s IH]; [done|]. cbn [lstrip].
  destruct (is_space c); simpl; lia.
Qed.

Lemma lstrip_rstrip s : lstrip s = s -> lstrip (rstrip s) = rstrip s.
Proof.
  destruct s as [|c s]; [done|]. cbn [lstrip].
  destruct (is_space c) eqn:Hc.
  - intros Heq. exfalso. pose proof (length_lstrip s) as Hlen.
    apply (f_equal String.length) in Heq. simpl in Heq. lia.
  - intros _. destruct (rstrip_head c s) as [-> | [t ->]]; [done|].
    cbn [lstrip]. by rewrite Hc.
Qed.

Lemma strip_idem s : strip (strip s) = strip s.
Proof.
  unfold strip. rewrite (lstrip_rstrip (lstrip s) (lstrip_idem s)).
  apply rstrip_idem.
Qed.

(** X4.  The text that [clean_json_response] returns never starts or ends
    with white space: stripping it changes nothing. *)
Theorem clean_json_response_trimmed s :
  strip (clean_json_response s) = clean_json_response s.
Proof.
  unfold clean_json_response. cbv zeta.
  set (r := re_sub re_closing_fence "" (re_sub re_json_fence "" s)).
  destruct (search_braces_spec r) as [(p & m & q & _ & _ & _ & ->)|[_ ->]].
  - unfold strip. change (lstrip ("{" +:+ m +:+ "}")) with ("{" +:+ m +:+ "}").
    change ("{" +:+ m +:+ "}") with (("{" +:+ m) +:+ String "}" "") at 1.
    rewrite <- (append_assoc "{" m "}").
    by rewrite rstrip_nonspace_end.
  - apply strip_idem.
Qed.

Lemma length_rstrip s : String.length (rstrip s) <= String.length s.
Proof.
  induction s as [|c s IH]; [done|]. cbn [rstrip].
  destruct (rstrip s); [destruct (is_space c)|]; simpl in *; lia.
Qed.

Lemma length_substring_le n k s :
  String.length (String.substring n k s) <= String.length s.
Proof.
  revert n k. induction s as [|c s IH]; intros [|n] [|k]; simpl; try lia.
  - specialize (IH 0 k). lia.
  - specialize (IH n 0). lia.
  - specialize (IH n (S k)). lia.
Qed.

Lemma length_re_sub_from skip r s :
  String.length (re_sub_from skip r "" s) <= String.length s.
Proof.
  revert skip. induction s as [|c s IH]; intros [|skip]; cbn [re_sub_from].
  - destruct (match_here r ""); simpl; lia.
  - simpl; lia.
  - destruct (match_here r (String c s)) as [rest|].
    + rewrite append_nil_l.
      destruct (String.length (String c s) - String.length rest =? 0)%nat.
      * specialize (IH 0). cbn [String.length]. lia.
      * match goal with
        | |- context [re_sub_from ?n r "" s] => specialize (IH n)
        end.
        change (String.length (String c s)) with (S (String.length s)) at 2. lia.
    + specialize (IH 0). cbn [String.length]. lia.
  - specialize (IH skip). cbn [String.length]. lia.
Qed.

Lemma length_re_search r s g :
  re_search r s = Some g -> String.length g <= String.length s.
Proof.
  revert g. induction s as [|c s IH]; intros g; cbn [re_search].
  - destruct (match_here r ""); [|done]. intros Hg.
    apply (inj Some) in Hg. rewrite <- Hg. apply length_substring_le.
  - destruct (match_here r (String c s)).
    + intros Hg. apply (inj Some) in Hg. rewrite <- Hg. apply length_substring_le.
    + intros Hg. specialize (IH g Hg). cbn [String.length]. lia.
Qed.

(** X5.  [clean_json_response] only removes text: its result is never
    longer than its argument. *)
Theorem clean_json_response_length s :
  String.length (clean_json_response s) <= String.length s.
Proof.
  unfold clean_json_response. cbv zeta.
  pose proof (length_re_sub_from 0 re_json_fence s) as H1.
  pose proof (length_re_sub_from 0 re_closing_fence (re_sub re_json_fence "" s)) as H2.
  fold (re_sub re_json_fence "" s) in H1, H2.
  fold (re_sub re_closing_fence "" (re_sub re_json_fence "" s)) in H2.
  set (r := re_sub re_closing_fence "" (re_sub re_json_fence "" s)) in *.
  destruct (re_search re_braces r) as [g|] eqn:Hg.
  - pose proof (length_re_search _ _ _ Hg). lia.
  - unfold strip. pose proof (length_rstrip (lstrip r)).
    pose proof (length_lstrip r). lia.
Qed.

End MoreCleanFacts.

(* ===================================================================== *)
(** * Further properties of the planner *)
(* ===================================================================== *)

Section MorePlannerFacts.

Context (lib : library) (env : environment) (model : string).

(** X6.  The brief is embedded verbatim in the prompt: the prompt is the
    fixed head, the brief and the fixed tail, so that its length is that of
    the empty-brief prompt plus that of the brief, and two briefs with the
    same prompt are the same brief. *)
Theorem create_prompt_embeds_brief :
  (forall b,
     _create_prompt b =
       String.concat newline prompt_head +:+ b +:+ newline +:+ newline
         +:+ "Respond with valid JSON only:" +:+ newline) /\
  (forall b,
     String.length (_create_prompt b)
     = String.length (_create_prompt "") + String.length b) /\
  (forall b1 b2, _create_prompt b1 = _create_prompt b2 -> b1 = b2).
Proof.
  split; [done|]. split.
  - intros b. unfold _create_prompt. rewrite !length_append. simpl. lia.
  - intros b1 b2. unfold _create_prompt. intros Heq.
    apply (inj (String.app _)) in Heq.
    by destruct (append_inj_suffix _ _ _ _ eq_refl Heq).
Qed.

(** X7.  A formatted error message gives back the class name and the text
    of the exception it was made from, class names having no closing
    parenthesis. *)
Theorem format_error_message_inj e1 e2 :
  no_char ")" (exn_name e1) = true -> no_char ")" (exn_name e2) = true ->
  format_error_message e1 = format_error_message e2 ->
  exn_name e1 = exn_name e2 /\ exn_str e1 = exn_str e2.
Proof.
  intros H1 H2 Heq.
  pose proof (format_error_message_name e1 e2 H1 H2 Heq) as Hname.
  split; [done|]. unfold format_error_message in Heq. rewrite Hname in Heq.
  apply (inj (String.app _)) in Heq. apply (inj (String.app _)) in Heq.
  by apply (inj (String.app _)) in Heq.
Qed.

End MorePlannerFacts.

Lemma format_error_message_inj_witness :
  no_char ")" (exn_name (MkExn "ValueError" false "bad")) = true /\
  no_char ")" (exn_name (MkExn "ValueError" true "bad")) = true /\
  format_error_message (MkExn "ValueError" false "bad")
    = format_error_message (MkExn "ValueError" true "bad") /\
  exn_name (MkExn "ValueError" false "bad") = exn_name (MkExn "ValueError" true "bad") /\
  exn_str (MkExn "ValueError" false "bad") = exn_str (MkExn "ValueError" true "bad").
Proof.
  split; [reflexivity|]. split; [reflexivity|]. split; [reflexivity|].
  apply (format_error_message_inj (MkExn "ValueError" false "bad")
           (MkExn "ValueError" true "bad")); reflexivity.
Defined.

Section FactoryFacts.

Context {client : Type} (groq : groq_library client)
        (getenv : string -> option string).

(** X8.  [create_planner] reports a missing key exactly when the variable
    is unset or empty, and then the Groq constructor plays no part; with a
    key it returns the agent built on the client for that key, with the
    model [llama-3.3-70b-versatile], or the formatted exception of the
    constructor.  In every case exactly one component is not [None], and
    the message is a non-empty string, so that the test [if error:] of the
    caller sees every failure. *)
Theorem create_planner_outcomes :
  (getenv "GROQ_API_KEY" = None \/ getenv "GROQ_API_KEY" = Some "" ->
     forall groq' : groq_library client,
       create_planner groq' getenv
       = (None, Some "GROQ_API_KEY not found in environment variables")) /\
  (forall key c,
     getenv "GROQ_API_KEY" = Some key -> key <> "" -> Groq groq key = inr c ->
     create_planner groq getenv
     = (Some (MkAgent c "llama-3.3-70b-versatile"), None)) /\
  (forall key e,
     getenv "GROQ_API_KEY" = Some key -> key <> "" -> Groq groq key = inl e ->
     create_planner groq getenv = (None, Some (format_error_message e))) /\
  exactly_one_non_null (create_planner groq getenv) /\
  App.truthy (create_planner groq getenv).2
    = match (create_planner groq getenv).1 with
      | Some _ => false
      | None => true
      end.
Proof.
  unfold create_planner, PlannerAgent_init. repeat split.
  - intros [-> | ->] groq'; done.
  - intros key c -> Hkey ->. by destruct key.
  - intros key e -> Hkey ->. by destruct key.
  - destruct (getenv "GROQ_API_KEY") as [[|a key]|]; try (right; by eexists).
    destruct (Groq groq (String a key)); [right|left]; by eexists.
  - destruct (getenv "GROQ_API_KEY") as [[|a key]|]; try done.
    by destruct (Groq groq (String a key)).
Qed.

End FactoryFacts.

Section MoreGeneratePlanFacts.

Context (lib : library) (env : environment) (model : string).

(** X9.  The message that [generate_plan] returns with no plan is never
    the empty string, and there is no message with a plan: the test
    [if error:] of the caller is true exactly when there is no plan. *)
Theorem generate_plan_error_truthy project_brief :
  exists plan error,
    generate_plan lib env model project_brief = Some (plan, error) /\
    App.truthy error = match plan with Some _ => false | None => true end.
Proof.
  unfold generate_plan.
  pose proof (generate_plan_body_total lib env model project_brief) as Htotal.
  destruct (generate_plan_body lib env model project_brief) as [plan|e|]; [| |done].
  - by eexists _, _.
  - destruct (exn_is_json_decode_error e); by eexists _, _.
Qed.

End MoreGeneratePlanFacts.

Section PipelineFacts.

Context (lib : library) (env : environment) (model : string).

Lemma ap_Valid_inv {A B : Type} (f : validated (A -> B)) (x : validated A) (b : B) :
  f <*> x = Valid b -> exists g a, f = Valid g /\ x = Valid a /\ b = g a.
Proof.
  destruct f as [g|e1], x as [a|e2]; simpl; try done.
  intros [= <-]. by eexists _, _.
Qed.

Lemma at_loc_Valid_inv {A : Type} (i : loc_item) (v : validated A) (a : A) :
  at_loc i v = Valid a -> v = Valid a.
Proof. by destruct v. Qed.

Lemma list_items_length {A : Type} (item : value -> validated A) (i : nat)
    (l : list value) (l' : list A) :
  list_items item i l = Valid l' -> length l' = length l.
Proof.
  revert i l'. induction l as [|x l IH]; intros i l'; cbn [list_items].
  - by intros [= <-].
  - intros (g & tl & Hg & Htl & ->)%ap_Valid_inv.
    apply ap_Valid_inv in Hg as (g' & a & [= <-] & _ & ->).
    simpl. by rewrite (IH _ _ Htl).
Qed.

Lemma plan_validate_risks m p :
  Plan.validate lib m = Valid p ->
  exists l, m !! "risks" = Some (VList l) /\ length (Plan.risks p) = length l.
Proof.
  unfold Plan.validate.
  intros (g7 & a7 & H6 & _ & ->)%ap_Valid_inv.
  apply ap_Valid_inv in H6 as (g6 & a6 & H5 & _ & ->).
  apply ap_Valid_inv in H5 as (g5 & a5 & H4 & Hrisks & ->).
  apply ap_Valid_inv in H4 as (g4 & a4 & H3 & _ & ->).
  apply ap_Valid_inv in H3 as (g3 & a3 & H2 & _ & ->).
  apply ap_Valid_inv in H2 as (g2 & a2 & H1 & _ & ->).
  apply ap_Valid_inv in H1 as (g1 & a1 & [= <-] & _ & ->).
  cbn [Plan.risks]. unfold required in Hrisks.
  destruct (m !! "risks") as [r|]; [|done].
  apply at_loc_Valid_inv in Hrisks. unfold list_type in Hrisks.
  destruct r as [ | | | | | l | ]; try done.
  exists l. split; [done|]. by apply (list_items_length _ _ _ _ Hrisks).
Qed.

(** What [validate_json_structure] returns is a dict whose risks value has
    length 3. *)
Lemma validate_json_structure_result_Ok d v :
  validate_json_structure_result d = Ok v ->
  exists m' r', v = VDict m' /\ m' !! "risks" = Some r' /\ py_len r' = Ok 3.
Proof.
  unfold validate_json_structure_result.
  assert ((exists m, d = VDict m) \/ (forall m, d <> VDict m)) as [[m ->]|Hd].
  { destruct d; try (by right); left; by eexists. }
  - destruct (defaults_risks m) as [r Hr].
    rewrite (validate_json_structure_dict m r Hr).
    destruct (risks_rule r) as [r'| e |] eqn:Hrule; simpl; [|done|done].
    intros [= <-]. eexists _, r'. split; [done|].
    split; [by rewrite lookup_insert_eq|]. by apply (risks_rule_len r).
  - destruct (validate_json_structure_not_dict d Hd) as [e ->]. done.
Qed.

Lemma generate_plan_body_Ok project_brief plan :
  generate_plan_body lib env model project_brief = Ok plan ->
  exists text rest d m,
    chat_completions_create env
      (chat_request_for model (_create_prompt project_brief))
      = inr (Some text :: rest) /\
    json_loads env (clean_json_response text) = inr d /\
    validate_json_structure_result d = Ok (VDict m) /\
    Plan.validate lib m = Valid plan.
Proof.
  unfold generate_plan_body.
  destruct (chat_completions_create env _) as [e|response] eqn:Hc; simpl; [done|].
  destruct response as [|content rest]; simpl; [done|].
  destruct content as [text|]; simpl; [|done].
  destruct (json_loads env _) as [e|d] eqn:Hj; simpl; [done|].
  destruct (validate_json_structure_result d) as [d'|e|] eqn:Hv; simpl; [|done|done].
  destruct d' as [ | | | | | | m]; simpl; try done.
  unfold Plan.new. destruct (Plan.validate lib m) as [p|errors] eqn:Hp; simpl; [|done].
  intros [= <-]. by eexists text, rest, d, m.
Qed.

Lemma generate_plan_body_risks project_brief plan :
  generate_plan_body lib env model project_brief = Ok plan ->
  length (Plan.risks plan) = 3.
Proof.
  intros (text & rest & d & m & _ & _ & Hv & Hp)%generate_plan_body_Ok.
  apply validate_json_structure_result_Ok in Hv as (m' & r' & [= <-] & Hr & Hlen).
  apply plan_validate_risks in Hp as (l & Hl & ->).
  rewrite Hr in Hl. injection Hl as ->. simpl in Hlen. by injection Hlen.
Qed.

(** X10.  Every plan that [generate_plan] returns has exactly three risks,
    whatever the model answered and whatever the library coerces. *)
Theorem generate_plan_three_risks project_brief plan error :
  generate_plan lib env model project_brief = Some (Some plan, error) ->
  length (Plan.risks plan) = 3.
Proof.
  unfold generate_plan.
  destruct (generate_plan_body lib env model project_brief) as [p|e|] eqn:Hbody;
    [| |done].
  - intros [= <- _]. by apply (generate_plan_body_risks project_brief).
  - by destruct (exn_is_json_decode_error e).
Qed.

Lemma plan_dump_all_present p :
  Forall (fun k => is_Some (plan_dump p !! k)) required_names.
Proof.
  unfold plan_dump.
  repeat constructor;
    repeat (rewrite lookup_insert_eq || rewrite lookup_insert_ne by done);
    by eexists.
Qed.

Lemma plan_dump_with_risks p rs :
  <["risks" := VList (risk_dump <$> rs)]> (plan_dump p) = plan_dump (with_risks p rs).
Proof.
  unfold plan_dump, with_risks; simpl.
  rewrite (insert_insert_ne _ "risks" "project_name") by done.
  rewrite (insert_insert_ne _ "risks" "project_summary") by done.
  rewrite (insert_insert_ne _ "risks" "total_weeks") by done.
  rewrite (insert_insert_ne _ "risks" "milestones") by done.
  by rewrite insert_insert_eq.
Qed.

Lemma validate_json_structure_plan_dump p :
  validate_json_structure_result (VDict (plan_dump p))
  = Ok (VDict (plan_dump (with_risks p (three_risks (Plan.risks p))))).
Proof.
  unfold validate_json_structure_result.
  pose proof (all_present_absorbs_defaults _ (plan_dump_all_present p)) as Habs.
  assert ((plan_dump p ∪ defaults) !! "risks"
          = Some (VList (risk_dump <$> Plan.risks p))) as Hr.
  { rewrite Habs. unfold plan_dump.
    by repeat (rewrite lookup_insert_eq || rewrite lookup_insert_ne by done). }
  rewrite (validate_json_structure_dict _ _ Hr). simpl. rewrite Habs.
  rewrite <- plan_dump_with_risks. do 4 f_equal.
  unfold three_risks. rewrite fmap_take, fmap_app, fmap_replicate.
  by rewrite length_fmap.
Qed.

(** X11.  When the answer of the model parses to the field-for-field data
    of a plan, [generate_plan] returns that plan with its risks brought to
    three: the first three of them, or all of them followed by placeholder
    risks.  Nothing else of the plan is changed and there is no error. *)
Theorem generate_plan_round_trip project_brief text rest p :
  chat_completions_create env (chat_request_for model (_create_prompt project_brief))
    = inr (Some text :: rest) ->
  json_loads env (clean_json_response text) = inr (VDict (plan_dump p)) ->
  generate_plan lib env model project_brief
  = Some (Some (with_risks p (three_risks (Plan.risks p))), None).
Proof.
  intros Hc Hj. unfold generate_plan, generate_plan_body.
  rewrite Hc. simpl. rewrite Hj. simpl.
  rewrite validate_json_structure_plan_dump. simpl.
  unfold Plan.new. by rewrite plan_validate_dump.
Qed.

(** X12.  When the model answers with the empty JSON object, the call
    succeeds all the same: it returns the plan made of the defaults, with
    no milestone and three placeholder risks. *)
Theorem generate_plan_empty_object project_brief text rest :
  chat_completions_create env (chat_request_for model (_create_prompt project_brief))
    = inr (Some text :: rest) ->
  json_loads env (clean_json_response text) = inr (VDict ∅) ->
  generate_plan lib env model project_brief = Some (Some default_plan, None).
Proof.
  intros Hc Hj. unfold generate_plan, generate_plan_body.
  rewrite Hc. simpl. rewrite Hj. simpl.
  assert (validate_json_structure_result (VDict ∅) = Ok (VDict repaired_defaults))
    as -> by (by vm_compute).
  simpl. by vm_compute.
Qed.

(** X13.  When the model answers with JSON that is not an object (a list,
    a string, a number, null), the failure is reported as a [TypeError],
    not as invalid JSON. *)
Theorem generate_plan_non_object project_brief text rest d :
  chat_completions_create env (chat_request_for model (_create_prompt project_brief))
    = inr (Some text :: rest) ->
  json_loads env (clean_json_response text) = inr d ->
  (forall m, d <> VDict m) ->
  exists msg,
    generate_plan lib env model project_brief
    = Some (None, Some ("Error (TypeError): " +:+ msg)).
Proof.
  intros Hc Hj Hd. unfold generate_plan, generate_plan_body.
  rewrite Hc. simpl. rewrite Hj. simpl.
  destruct (validate_json_structure_non_dict_TypeError d Hd) as [msg Hv].
  unfold validate_json_structure_result. rewrite Hv. simpl. by exists msg.
Qed.

End PipelineFacts.

Lemma generate_plan_three_risks_witness :
  exists plan,
    generate_plan strict_library scenario_b_provider default_model "Build a todo app"
      = Some (Some plan, None) /\
    length (Plan.risks plan) = 3.
Proof.
  eexists. split; [by vm_compute|].
  apply (generate_plan_three_risks strict_library scenario_b_provider default_model
           "Build a todo app" _ None).
  by vm_compute.
Defined.

Lemma generate_plan_round_trip_witness :
  chat_completions_create (answering "{}" (VDict (plan_dump sample_plan)))
    (chat_request_for default_model (_create_prompt "brief"))
    = inr (Some "{}" :: []) /\
  json_loads (answering "{}" (VDict (plan_dump sample_plan)))
    (clean_json_response "{}") = inr (VDict (plan_dump sample_plan)) /\
  generate_plan strict_library (answering "{}" (VDict (plan_dump sample_plan)))
    default_model "brief"
  = Some (Some (with_risks sample_plan (three_risks (Plan.risks sample_plan))), None).
Proof.
  split; [reflexivity|]. split; [reflexivity|].
  apply (generate_plan_round_trip strict_library
           (answering "{}" (VDict (plan_dump sample_plan))) default_model
           "brief" "{}" [] sample_plan); reflexivity.
Defined.

Lemma generate_plan_empty_object_witness :
  chat_completions_create (answering "{}" (VDict ∅))
    (chat_request_for default_model (_create_prompt "brief"))
    = inr (Some "{}" :: []) /\
  json_loads (answering "{}" (VDict ∅)) (clean_json_response "{}") = inr (VDict ∅) /\
  generate_plan strict_library (answering "{}" (VDict ∅)) default_model "brief"
  = Some (Some default_plan, None).
Proof.
  split; [reflexivity|]. split; [reflexivity|].
  apply (generate_plan_empty_object strict_library (answering "{}" (VDict ∅))
           default_model "brief" "{}" []); reflexivity.
Defined.

Lemma generate_plan_non_object_witness :
  chat_completions_create (answering "[]" (VList []))
    (chat_request_for default_model (_create_prompt "brief"))
    = inr (Some "[]" :: []) /\
  json_loads (answering "[]" (VList [])) (clean_json_response "[]") = inr (VList []) /\
  (forall m, VList [] <> VDict m) /\
  exists msg,
    generate_plan strict_library (answering "[]" (VList [])) default_model "brief"
    = Some (None, Some ("Error (TypeError): " +:+ msg)).
Proof.
  assert (forall m, VList [] <> VDict m) as H by (intros m; discriminate).
  split; [reflexivity|]. split; [reflexivity|]. split; [exact H|].
  apply (generate_plan_non_object strict_library (answering "[]" (VList []))
           default_model "brief" "[]" [] (VList [])); [reflexivity|reflexivity|exact H].
Defined.

Section UnknownKeys.

Context (lib : library).

Lemma required_name_cases (P : string -> Prop) :
  P "project_name" -> P "project_summary" -> P "total_weeks" -> P "milestones" ->
  P "risks" -> P "monitoring_checkpoints" -> P "parallel_opportunities" ->
  forall f, f ∈ required_names -> P f.
Proof.
  intros H1 H2 H3 H4 H5 H6 H7 f Hf.
  apply list_elem_of_In in Hf. cbv in Hf.
  repeat (destruct Hf as [<-|Hf]; [assumption|]). destruct Hf.
Qed.

Lemma required_name_elem :
  Forall (fun f => f ∈ required_names)
    ["project_name"; "project_summary"; "total_weeks"; "milestones"; "risks";
     "monitoring_checkpoints"; "parallel_opportunities"].
Proof. repeat constructor; apply list_elem_of_In; cbv; auto 10. Qed.

Lemma union_defaults_present m f :
  f ∈ required_names -> is_Some ((m ∪ defaults) !! f).
Proof.
  intros Hf. rewrite lookup_union.
  assert (is_Some (defaults !! f)) as [x ->].
  { revert f Hf. apply required_name_cases; by eexists. }
  destruct (m !! f); by eexists.
Qed.

Lemma required_insert_ne {A : Type} (m : gmap string value) k v f
    (type : value -> validated A) :
  k <> f -> is_Some (m !! f) ->
  required (<[k := v]> m) f type = required m f type.
Proof.
  intros Hne [x Hx]. unfold required. rewrite lookup_insert_ne by done.
  by rewrite Hx.
Qed.

Lemma plan_validate_insert m k v :
  k ∉ required_names ->
  (forall f, f ∈ required_names -> is_Some (m !! f)) ->
  Plan.validate lib (<[k := v]> m) = Plan.validate lib m.
Proof.
  intros Hk Hm.
  assert (forall (A : Type) f (type : value -> validated A),
            f ∈ required_names ->
            required (<[k := v]> m) f type = required m f type) as Hreq.
  { intros A f type Hf. apply required_insert_ne; [|by apply Hm].
    intros ->. by apply Hk. }
  pose proof required_name_elem as Hnames.
  repeat (apply Forall_cons in Hnames as [? Hnames]).
  unfold Plan.validate. by rewrite !Hreq.
Qed.

(** X14.  A top-level key of the answer that is not one of the seven
    fields of a plan changes nothing: the plan, or the message, is the one
    obtained without it. *)
Theorem generate_plan_ignores_unknown_key
    (create : chat_request -> exn + list (option string))
    (loads loads' : string -> exn + value) (model project_brief text : string)
    (rest : list (option string)) (m : gmap string value) (k : string) (v : value) :
  create (chat_request_for model (_create_prompt project_brief))
    = inr (Some text :: rest) ->
  loads (clean_json_response text) = inr (VDict m) ->
  loads' (clean_json_response text) = inr (VDict (<[k := v]> m)) ->
  k ∉ required_names ->
  generate_plan lib (MkEnvironment create loads') model project_brief
  = generate_plan lib (MkEnvironment create loads) model project_brief.
Proof.
  intros Hc Hl Hl' Hk.
  unfold generate_plan, generate_plan_body. simpl.
  rewrite Hc. simpl. rewrite Hl, Hl'. simpl.
  assert (k <> "risks") as Hrisks.
  { intros ->. apply Hk. apply list_elem_of_In. cbv. auto 10. }
  destruct (defaults_risks m) as [r Hr].
  assert ((<[k := v]> m ∪ defaults) !! "risks" = Some r) as Hr'.
  { rewrite <- insert_union_l. by rewrite lookup_insert_ne. }
  unfold validate_json_structure_result.
  rewrite (validate_json_structure_dict _ _ Hr), (validate_json_structure_dict _ _ Hr').
  destruct (risks_rule r) as [r'|e|]; simpl; [|done|done].
  rewrite <- insert_union_l, (insert_insert_ne _ "risks" k) by done.
  unfold Plan.new. rewrite plan_validate_insert; [done|done|].
  intros f Hf. destruct (decide (f = "risks")) as [->|Hne].
  - rewrite lookup_insert_eq. by eexists.
  - rewrite lookup_insert_ne by done. by apply union_defaults_present.
Qed.

End UnknownKeys.

Lemma generate_plan_ignores_unknown_key_witness :
  generate_plan strict_library
    (MkEnvironment (fun _ => inr [Some "{}"])
       (fun _ => inr (VDict (<["extra" := VInt 1]> ∅))))
    default_model "brief"
  = generate_plan strict_library
      (MkEnvironment (fun _ => inr [Some "{}"]) (fun _ => inr (VDict ∅)))
      default_model "brief".
Proof.
  apply (generate_plan_ignores_unknown_key strict_library
           (fun _ => inr [Some "{}"]) (fun _ => inr (VDict ∅))
           (fun _ => inr (VDict (<["extra" := VInt 1]> ∅)))
           default_model "brief" "{}" [] ∅ "extra" (VInt 1));
    [reflexivity|reflexivity|reflexivity|].
  intros Hin. apply list_elem_of_In in Hin. cbv in Hin.
  repeat (destruct Hin as [Hin|Hin]; [discriminate Hin|]). destruct Hin.
Defined.

(* ===================================================================== *)
(** * Properties of the Markdown lists and of app.py *)
(* ===================================================================== *)

Section MoreMarkdownFacts.

Lemma add_risk_append md entry :
  Plan.add_risk md entry = md +:+ Plan.add_risk "" entry.
Proof.
  destruct entry as [i r]. unfold Plan.add_risk.
  by rewrite !append_nil_l, !append_assoc.
Qed.

Lemma enumerate_blocks rs start :
  Plan.add_risk "" <$> Plan.enumerate rs start
  = imap (fun i r => risk_block (start + Z.of_nat i) r) rs.
Proof.
  revert start. induction rs as [|r rs IH]; intros start; [done|].
  cbn [Plan.enumerate fmap list_fmap imap]. f_equal.
  - unfold risk_block. by rewrite Z.add_0_r.
  - rewrite IH. apply imap_ext. intros i x _. simpl. f_equal. lia.
Qed.

(** X15.  In the risks section of the Markdown the risks come in the order
    of the list and are numbered from 1 upwards (in general from the start
    of the enumeration); each one gives a heading with its number and title
    and three lines.  A bulleted list is one line per item, in order. *)
Theorem to_markdown_risks_numbered :
  (forall p,
     fold_left Plan.add_risk (Plan.enumerate (Plan.risks p) 1) ""
     = concat_strings (imap (fun i r => risk_block (1 + Z.of_nat i) r) (Plan.risks p))) /\
  (forall i r,
     risk_block i r =
       "### " +:+ Plan.str_of_int i +:+ ". " +:+ Risk.title r +:+ newline
         +:+ "**Description:** " +:+ Risk.description r +:+ newline
         +:+ "**Impact:** " +:+ Risk.impact r +:+ " | **Probability:** "
         +:+ Risk.probability r +:+ newline
         +:+ "**Mitigation:** " +:+ Risk.mitigation r +:+ newline +:+ newline) /\
  (forall xs, Plan.add_bullets xs "" = concat_strings (bullet <$> xs)).
Proof.
  split; [|split].
  - intros p. rewrite (fold_left_append _ _ "" add_risk_append), append_nil_l.
    by rewrite enumerate_blocks.
  - intros i r. unfold risk_block, Plan.add_risk.
    by rewrite !append_nil_l, !append_assoc.
  - intros xs. unfold Plan.add_bullets.
    rewrite (fold_left_append _ xs ""), append_nil_l.
    + done.
    + intros md x. by rewrite append_nil_l.
Qed.

End MoreMarkdownFacts.

Section AppFacts.

Lemma fold_left_add xs a : fold_left Z.add xs a = (a + foldr Z.add 0 xs)%Z.
Proof.
  revert a. induction xs as [|x xs IH]; intros a; simpl; [lia|].
  rewrite IH. lia.
Qed.

Lemma py_sum_cons x xs : App.py_sum (x :: xs) = (x + App.py_sum xs)%Z.
Proof. unfold App.py_sum. simpl. rewrite !fold_left_add. lia. Qed.

Lemma py_sum_Permutation xs ys : xs ≡ₚ ys -> App.py_sum xs = App.py_sum ys.
Proof.
  induction 1 as [|x xs ys _ IH|x y xs|xs ys zs _ IH1 _ IH2].
  - done.
  - by rewrite !py_sum_cons, IH.
  - rewrite !py_sum_cons. lia.
  - by rewrite IH1.
Qed.

Lemma insert_by_week_Permutation e l : App.insert_by_week e l ≡ₚ e :: l.
Proof.
  induction l as [|y l IH]; simpl; [done|].
  destruct (App.Week e <=? App.Week y)%Z; [done|].
  rewrite IH. apply Permutation_swap.
Qed.

Lemma sort_by_week_Permutation l : App.sort_by_week l ≡ₚ l.
Proof.
  induction l as [|e l IH]; simpl; [done|].
  by rewrite insert_by_week_Permutation, IH.
Qed.

Lemma timeline_data_Permutation plan :
  App.timeline_data plan ≡ₚ map App.timeline_entry_of (Plan.milestones plan).
Proof. apply sort_by_week_Permutation. Qed.

(** X16.  The timeline has one entry per milestone, and its columns add up
    to the summary metrics: the sum of [Tasks] is [total_tasks] and the sum
    of [Hours] is [total_hours], whatever the order of the weeks. *)
Theorem timeline_totals plan :
  length (App.timeline_data plan) = length (Plan.milestones plan) /\
  App.py_sum (map App.Tasks (App.timeline_data plan)) = App.total_tasks plan /\
  App.py_sum (map App.Hours (App.timeline_data plan)) = App.total_hours plan.
Proof.
  pose proof (timeline_data_Permutation plan) as Hperm.
  split; [|split].
  - by rewrite Hperm, length_map.
  - rewrite (py_sum_Permutation _ _ (Permutation_map App.Tasks Hperm)).
    by rewrite map_map.
  - rewrite (py_sum_Permutation _ _ (Permutation_map App.Hours Hperm)).
    by rewrite map_map.
Qed.

Lemma insert_by_week_sorted e l :
  sorted_by_week l -> sorted_by_week (App.insert_by_week e l).
Proof.
  unfold sorted_by_week.
  induction l as [|y l IH]; intros Hs; simpl.
  - by repeat constructor.
  - apply StronglySorted_inv in Hs as [Hs Hy].
    destruct (App.Week e <=? App.Week y)%Z eqn:Hle.
    + apply Z.leb_le in Hle. constructor; [by constructor|].
      constructor; [done|].
      eapply Forall_impl; [exact Hy|]. intros z Hz. simpl in Hz. lia.
    + apply Z.leb_gt in Hle. constructor; [by apply IH|].
      rewrite insert_by_week_Permutation. constructor; [lia|done].
Qed.

Lemma sort_by_week_sorted l : sorted_by_week (App.sort_by_week l).
Proof.
  induction l as [|e l IH]; simpl; [constructor|].
  by apply insert_by_week_sorted.
Qed.

Lemma of_week_cons w e l :
  of_week w (e :: l) = if decide (App.Week e = w) then e :: of_week w l else of_week w l.
Proof. unfold of_week. by rewrite filter_cons. Qed.

Lemma insert_by_week_of_week w e l :
  of_week w (App.insert_by_week e l) = of_week w (e :: l).
Proof.
  induction l as [|y l IH]; simpl; [done|].
  destruct (App.Week e <=? App.Week y)%Z eqn:Hle; [done|].
  apply Z.leb_gt in Hle.
  rewrite (of_week_cons w y), IH, !of_week_cons.
  destruct (decide (App.Week e = w)), (decide (App.Week y = w)); try done. lia.
Qed.

Lemma sort_by_week_of_week w l : of_week w (App.sort_by_week l) = of_week w l.
Proof.
  induction l as [|e l IH]; simpl; [done|].
  by rewrite insert_by_week_of_week, !of_week_cons, IH.
Qed.

Lemma of_week_elem w e l : e ∈ of_week w l <-> e ∈ l /\ App.Week e = w.
Proof. unfold of_week. rewrite list_elem_of_filter. tauto. Qed.

(** Two lists in ascending order of week that agree week by week are the
    same list. *)
Lemma stable_sort_unique l1 l2 :
  sorted_by_week l1 -> sorted_by_week l2 ->
  (forall w, of_week w l1 = of_week w l2) -> l1 = l2.
Proof.
  unfold sorted_by_week. revert l2.
  induction l1 as [|x l1 IH]; intros l2 Hs1 Hs2 Hw.
  - destruct l2 as [|y l2]; [done|].
    specialize (Hw (App.Week y)). rewrite of_week_cons in Hw.
    by destruct (decide (App.Week y = App.Week y)).
  - destruct l2 as [|y l2].
    { specialize (Hw (App.Week x)). rewrite of_week_cons in Hw.
      by destruct (decide (App.Week x = App.Week x)). }
    apply StronglySorted_inv in Hs1 as [Hs1 Hx].
    apply StronglySorted_inv in Hs2 as [Hs2 Hy].
    assert (App.Week x = App.Week y) as Hxy.
    { assert (y ∈ x :: l1) as Hin1.
      { apply (of_week_elem (App.Week y)). rewrite Hw.
        apply of_week_elem. split; [left|done]. }
      assert (x ∈ y :: l2) as Hin2.
      { apply (of_week_elem (App.Week x)). rewrite <- Hw.
        apply of_week_elem. split; [left|done]. }
      rewrite Forall_forall in Hx, Hy.
      apply elem_of_cons in Hin1 as [->|Hin1]; [done|].
      apply elem_of_cons in Hin2 as [->|Hin2]; [done|].
      specialize (Hx _ Hin1). specialize (Hy _ Hin2). simpl in Hx, Hy. lia. }
    assert (x = y /\ forall w, of_week w l1 = of_week w l2) as [-> Hrest].
    { split.
      - specialize (Hw (App.Week x)). rewrite !of_week_cons, <- Hxy in Hw.
        destruct (decide (App.Week x = App.Week x)); [|done]. by injection Hw.
      - intros w. specialize (Hw w). rewrite !of_week_cons, <- Hxy in Hw.
        destruct (decide (App.Week x = w)); [|done]. by injection Hw. }
    f_equal. by apply IH.
Qed.

(** X17.  The timeline is the stable sort of the milestones' entries by
    week: it is in ascending order of week, it has the same entries, the
    entries of one week keep the order of the milestones, and it is the
    only list with these properties. *)
Theorem timeline_data_stable_sort plan :
  sorted_by_week (App.timeline_data plan) /\
  App.timeline_data plan ≡ₚ map App.timeline_entry_of (Plan.milestones plan) /\
  (forall w,
     of_week w (App.timeline_data plan)
     = of_week w (map App.timeline_entry_of (Plan.milestones plan))) /\
  (forall l,
     sorted_by_week l ->
     (forall w, of_week w l = of_week w (map App.timeline_entry_of (Plan.milestones plan))) ->
     l = App.timeline_data plan).
Proof.
  split; [apply sort_by_week_sorted|].
  split; [apply timeline_data_Permutation|].
  split; [intros w; apply sort_by_week_of_week|].
  intros l Hs Hw. apply stable_sort_unique; [done|apply sort_by_week_sorted|].
  intros w. unfold App.timeline_data. by rewrite sort_by_week_of_week.
Qed.

Lemma find_name_Some (ms : list Milestone.t) (m0 : Milestone.t) :
  m0 ∈ ms ->
  exists m,
    List.find (fun m => String.eqb (Milestone.name m) (Milestone.name m0)) ms = Some m /\
    m ∈ ms /\ Milestone.name m = Milestone.name m0 /\
    (NoDup (Milestone.name <$> ms) -> m = m0).
Proof.
  induction ms as [|m ms IH]; intros Hin; [by apply elem_of_nil in Hin|].
  simpl. destruct (String.eqb_spec (Milestone.name m) (Milestone.name m0)) as [Heq|Hne].
  - exists m. split; [done|]. split; [left|]. split; [done|].
    intros Hnd. apply elem_of_cons in Hin as [->|Hin]; [done|].
    change (NoDup (Milestone.name m :: (Milestone.name <$> ms))) in Hnd.
    apply NoDup_cons in Hnd as [Hnotin _].
    destruct Hnotin. rewrite Heq. by apply list_elem_of_fmap_2.
  - apply elem_of_cons in Hin as [->|Hin]; [done|].
    destruct (IH Hin) as (m' & Hfind & Hin' & Hname & Hnd).
    exists m'. split; [done|]. split; [by right|]. split; [done|].
    intros Hnd'.
    change (NoDup (Milestone.name m :: (Milestone.name <$> ms))) in Hnd'.
    apply NoDup_cons in Hnd' as [_ Hnd'].
    by apply Hnd.
Qed.

(** X18.  For every entry of the timeline the search for its milestone by
    name finds one: the generator is never exhausted.  The milestone found
    is the first one of the plan with that name; when the names of the
    milestones are distinct, it is the one the entry was made from. *)
Theorem actual_milestone_found plan e :
  e ∈ App.timeline_data plan ->
  exists m,
    App.actual_milestone plan e = Some m /\
    m ∈ Plan.milestones plan /\
    Milestone.name m = App.Milestone_name e /\
    (NoDup (Milestone.name <$> Plan.milestones plan) -> App.timeline_entry_of m = e).
Proof.
  rewrite timeline_data_Permutation. intros Hin.
  apply list_elem_of_fmap in Hin as (m0 & -> & Hin).
  destruct (find_name_Some _ _ Hin) as (m & Hfind & Hin' & Hname & Hnd).
  exists m. split; [done|]. split; [done|]. split; [done|].
  intros Hnd'. by rewrite (Hnd Hnd').
Qed.

Lemma length_substring_0 n s :
  String.length (String.substring 0 n s) = n `min` String.length s.
Proof.
  revert n. induction s as [|c s IH]; intros [|n]; simpl; try done.
  by rewrite IH.
Qed.

(** X19.  The description shown in the timeline keeps the first hundred
    characters of the milestone's description.  It is the description
    itself up to a hundred characters and has 103 characters beyond, so
    that a description of 101 or 102 characters is shown longer than it
    is. *)
Theorem short_description_length d :
  String.substring 0 100 (App.short_description d) = String.substring 0 100 d /\
  String.length (App.short_description d)
  = (if (100 <? String.length d)%nat then 103 else String.length d) /\
  (String.length (App.short_description d) <= String.length d
   <-> String.length d <> 101 /\ String.length d <> 102).
Proof.
  assert (String.length (App.short_description d)
          = (if (100 <? String.length d)%nat then 103 else String.length d)) as Hlen.
  { unfold App.short_description.
    destruct (100 <? String.length d)%nat eqn:Hd; [|done].
    apply Nat.ltb_lt in Hd. rewrite length_append, length_substring_0.
    change (String.length "...") with 3. lia. }
  split; [|split; [exact Hlen|]].
  - unfold App.short_description.
    destruct (100 <? String.length d)%nat eqn:Hd; [|done].
    apply Nat.ltb_lt in Hd.
    pose proof (length_substring_0 100 d) as Hs.
    rewrite Nat.min_l in Hs by lia.
    set (s := String.substring 0 100 d) in *.
    rewrite <- Hs at 1. apply substring_append_l.
  - rewrite Hlen. destruct (100 <? String.length d)%nat eqn:Hd.
    + apply Nat.ltb_lt in Hd. lia.
    + apply Nat.ltb_ge in Hd. lia.
Qed.

Lemma length_replace_char old new s :
  String.length (App.replace_char old new s) = String.length s.
Proof. induction s as [|c s IH]; simpl; [done|]. by rewrite IH. Qed.

Lemma replace_char_no_char old new s :
  old <> new -> no_char old (App.replace_char old new s) = true.
Proof.
  intros Hne. unfold no_char. induction s as [|c s IH]; simpl; [done|].
  rewrite IH, andb_true_r.
  destruct (Ascii.eqb_spec c old) as [->|Hc].
  - destruct (Ascii.eqb_spec new old); [by subst|done].
  - by destruct (Ascii.eqb_spec c old).
Qed.

Lemma replace_char_id old new s :
  no_char old s = true -> App.replace_char old new s = s.
Proof.
  unfold no_char. induction s as [|c s IH]; simpl; [done|].
  intros [Hc Hs]%andb_true_iff. rewrite (IH Hs).
  by destruct (Ascii.eqb c old).
Qed.

(** X20.  The names of the two downloads have no space; they are as long
    as the project name plus the suffix, and they are the project name
    with the suffix when the project name has no space. *)
Theorem file_names_without_space plan :
  no_char " " (App.markdown_file_name plan) = true /\
  no_char " " (App.json_file_name plan) = true /\
  String.length (App.markdown_file_name plan)
    = String.length (Plan.project_name plan) + 8 /\
  String.length (App.json_file_name plan)
    = String.length (Plan.project_name plan) + 10 /\
  (no_char " " (Plan.project_name plan) = true ->
   App.markdown_file_name plan = Plan.project_name plan +:+ "_plan.md" /\
   App.json_file_name plan = Plan.project_name plan +:+ "_plan.json").
Proof.
  unfold App.markdown_file_name, App.json_file_name, no_char.
  rewrite !all_chars_append, !length_append, !length_replace_char.
  pose proof (replace_char_no_char " " "_" (Plan.project_name plan)) as Hno.
  unfold no_char in Hno. rewrite Hno by done.
  split; [done|]. split; [done|]. split; [done|]. split; [done|].
  intros Hns. by rewrite (replace_char_id " " "_" _ Hns).
Qed.

End AppFacts.

Lemma actual_milestone_found_witness :
  App.timeline_entry_of
    (Milestone.mk "MVP" "First version" 2 ["API"]
       [ Task.mk "Design" "Draw it" 8 [] false;
         Task.mk "Build" "Code it" 16 ["Design"; "Setup"] true ]
       ["Works"]) ∈ App.timeline_data sample_plan /\
  exists m,
    App.actual_milestone sample_plan
      (App.timeline_entry_of
         (Milestone.mk "MVP" "First version" 2 ["API"]
            [ Task.mk "Design" "Draw it" 8 [] false;
              Task.mk "Build" "Code it" 16 ["Design"; "Setup"] true ]
            ["Works"])) = Some m /\
    m ∈ Plan.milestones sample_plan /\
    Milestone.name m = "MVP" /\
    (NoDup (Milestone.name <$> Plan.milestones sample_plan) ->
     App.timeline_entry_of m
     = App.timeline_entry_of
         (Milestone.mk "MVP" "First version" 2 ["API"]
            [ Task.mk "Design" "Draw it" 8 [] false;
              Task.mk "Build" "Code it" 16 ["Design"; "Setup"] true ]
            ["Works"])).
Proof.
  assert (App.timeline_entry_of
    (Milestone.mk "MVP" "First version" 2 ["API"]
       [ Task.mk "Design" "Draw it" 8 [] false;
         Task.mk "Build" "Code it" 16 ["Design"; "Setup"] true ]
       ["Works"]) ∈ App.timeline_data sample_plan) as Hin by (vm_compute; left).
  split; [exact Hin|].
  exact (actual_milestone_found sample_plan _ Hin).
Defined.

Section OnGenerateFacts.

Context {client : Type} (lib : library) (groq : groq_library client)
        (loads : string -> exn + value) (getenv : string -> option string).

Lemma generate_plan_outcome (env : environment) (model project_brief : string) :
  (exists p, generate_plan lib env model project_brief = Some (Some p, None) /\
             length (Plan.risks p) = 3) \/
  (exists s, generate_plan lib env model project_brief = Some (None, Some s) /\
             App.truthy (Some s) = true).
Proof.
  unfold generate_plan.
  pose proof (generate_plan_body_total lib env model project_brief) as Htotal.
  pose proof (generate_plan_body_risks lib env model project_brief) as Hrisks.
  destruct (generate_plan_body lib env model project_brief) as [plan|e|]; [| |done].
  - left. exists plan. split; [done|]. by apply Hrisks.
  - right. destruct (exn_is_json_decode_error e); by eexists.
Qed.

(** X21.  A click on the button never raises: it shows one of four errors
    or stores a plan.  The brief is refused when it is blank; the key is
    checked before [create_planner] is called, so that the message of
    [create_planner] for a missing key is never shown; a failure of the
    Groq constructor and a failure of [generate_plan] are shown with their
    message; what is stored is a plan, never [None], and it has three
    risks. *)
Theorem on_generate_outcomes project_brief :
  exists o,
    App.on_generate lib groq loads getenv project_brief = Some o /\
    match o with
    | App.ShowError message =>
        (strip project_brief = "" /\
         message = "Please enter a project brief or upload a file.") \/
        (strip project_brief <> "" /\
         (getenv "GROQ_API_KEY" = None \/ getenv "GROQ_API_KEY" = Some "") /\
         message = "Please configure your Groq API key in the .env file.") \/
        (exists key e,
           strip project_brief <> "" /\
           getenv "GROQ_API_KEY" = Some key /\ Groq groq key = inl e /\
           message = "Failed to initialize planner: " +:+ format_error_message e) \/
        (exists key c error,
           strip project_brief <> "" /\
           getenv "GROQ_API_KEY" = Some key /\ Groq groq key = inr c /\
           agent_generate_plan lib groq loads (MkAgent c default_model) project_brief
             = Some (None, Some error) /\
           message = "Failed to generate plan: " +:+ error)
    | App.StorePlan plan =>
        exists key c p,
          getenv "GROQ_API_KEY" = Some key /\ Groq groq key = inr c /\
          agent_generate_plan lib groq loads (MkAgent c default_model) project_brief
            = Some (Some p, None) /\
          plan = Some p /\ length (Plan.risks p) = 3
    | App.Raised _ => False
    end.
Proof.
  unfold App.on_generate.
  destruct (strip project_brief) as [|a0 brief'] eqn:Hbrief; simpl.
  { eexists. split; [done|]. left. done. }
  destruct (getenv "GROQ_API_KEY") as [[|a key]|] eqn:Hkey; simpl.
  - eexists. split; [done|]. right; left. split; [done|]. split; [by right|done].
  - unfold create_planner, PlannerAgent_init. rewrite Hkey.
    destruct (Groq groq (String a key)) as [e|c] eqn:Hgroq; simpl.
    + eexists. split; [done|]. right; right; left. by eexists _, _.
    + unfold agent_generate_plan at 1. simpl.
      destruct (generate_plan_outcome
                  (MkEnvironment (completions_create groq c) loads)
                  default_model project_brief)
        as [(p & Hp & Hlen) | (s & Hs & Htruthy)].
      * rewrite Hp. simpl. eexists. split; [done|]. by eexists _, _, _.
      * rewrite Hs, Htruthy. eexists. split; [done|].
        right; right; right. by eexists _, _, _.
  - eexists. split; [done|]. right; left. split; [done|]. split; [by left|done].
Qed.

End OnGenerateFacts.

(* ===================================================================== *)
(** * The pipeline at work on concrete inputs *)
(* ===================================================================== *)

(** The testable properties of section 8 of the specification, run on the
    embedding. *)

Example clean_json_response_examples :
  clean_json_response ("```json" +:+ newline +:+ "{a: {b}}" +:+ newline +:+ "```")
    = "{a: {b}}" /\
  clean_json_response "  no json here  " = "no json here" /\
  clean_json_response "Here is the plan: {x} thanks" = "{x}" /\
  clean_json_response "``` {x} ```" = "{x}" /\
  clean_json_response "} x {" = "} x {".
Proof. by vm_compute. Qed.

Example risks_lengths_0_1_2_3_5 :
  Forall (fun l : list value =>
            exists out,
              validate_json_structure_result (VDict {[ "risks" := VList l ]})
                = Ok (VDict (<["risks" := VList out]> ({[ "risks" := VList l ]} ∪ defaults)))
              /\ length out = 3
              /\ out = take 3 (l ++ replicate 3 generic_risk))
    [ []; [VInt 1]; [VInt 1; VInt 2]; [VInt 1; VInt 2; VInt 3];
      [VInt 1; VInt 2; VInt 3; VInt 4; VInt 5] ].
Proof. repeat constructor; eexists; (split; [by vm_compute|by split]). Qed.

Example to_markdown_sample :
  Plan.to_markdown sample_plan =
    String.concat newline
      [ "# Todo"; "";
        "**Project Summary:** An app"; "";
        "**Total Duration:** 4 weeks"; "";
        "## Milestones"; "";
        "### MVP (Week 2)";
        "First version"; "";
        "**Deliverables:**";
        "- API"; "";
        "**Tasks:**";
        "- **Design** (8h)";
        "  Draw it";
        "- **Build** (16h) (Can be done in parallel)";
        "  Code it";
        "  Dependencies: Design, Setup"; "";
        "**Success Criteria:**";
        "- Works"; "";
        "## Top 3 Risks"; "";
        "### 1. Delay";
        "**Description:** Late";
        "**Impact:** High | **Probability:** Low";
        "**Mitigation:** Buffer"; "";
        "## Monitoring Checkpoints"; "";
        "- Weekly"; "";
        "## Parallel Work Opportunities"; "";
        "- Build"; "" ].
Proof. by vm_compute. Qed.

Example generate_plan_scenario_b :
  generate_plan strict_library scenario_b_provider default_model "Build a todo app"
  = Some (Some (Plan.mk "X" "No summary provided" 4 []
                  [ Risk.mk "Delay" "Late" "High" "Low" "Buffer";
                    Risk.mk "Generic Risk" "Standard project risk" "Medium" "Medium"
                      "Monitor and adjust as needed";
                    Risk.mk "Generic Risk" "Standard project risk" "Medium" "Medium"
                      "Monitor and adjust as needed" ]
                  [] []),
          None).
Proof. by vm_compute. Qed.

Example generate_plan_scenario_c :
  generate_plan strict_library
    (MkEnvironment (fun _ => inr [Some "Sorry, I cannot help."])
                   (json_loads scenario_b_provider))
    default_model "Build a todo app"
  = Some (None,
          Some "Invalid JSON response from AI: Expecting value: line 1 column 1 (char 0)").
Proof. by vm_compute. Qed.
